(** * Reconciliation core of the Thanos operator: ThanosQuery and ThanosStore

    A shallow embedding of the two controllers
    ([ThanosQueryReconciler] and [ThanosStoreReconciler]) together with the
    properties stated about them.

    The controllers are effectful Go code: they talk to the API server
    through a client, record events, write log lines and bump Prometheus
    counters.  All of these are threaded explicitly through a [World]
    value; a reconciler method becomes a function [World -> Outcome _],
    where an [Outcome] is either a normal return or a Go panic. *)

From Stdlib Require Import ZArith String List Lia DecimalString.
From stdpp Require Import base option list gmap strings fin_maps.

Local Open Scope string_scope.
Local Open Scope list_scope.
Local Open Scope Z_scope.

(** ** Plain data shared by both controllers *)

(** Label and annotation maps: Go [map[string]string]. *)
Abbreviation Labels := (gmap string string).

(** [types.NamespacedName]. *)
Record NamespacedName := mkNamespacedName {
  nnNamespace : string;
  nnName : string;
}.

#[global] Instance NamespacedName_eq_dec : EqDecision NamespacedName.
Proof. solve_decision. Defined.

(** [reconcile.Request] and [ctrl.Result]. *)
Record Request := mkRequest { reqNamespacedName : NamespacedName }.

#[global] Instance Request_eq_dec : EqDecision Request.
Proof. solve_decision. Defined.

Record Result := mkResult {
  Requeue : bool;
  RequeueAfter : Z;
}.

(** [ctrl.Result{}] *)
Definition emptyResult : Result := {| Requeue := false; RequeueAfter := 0 |}.

(** Go [error] values.  The API client returns status errors carrying a
    reason; [fmt.Errorf] produces plain message errors. *)
Inductive StatusReason :=
  | StatusReasonNotFound
  | StatusReasonOther (reason : string).

Inductive error :=
  | StatusError (reason : StatusReason) (msg : string)
  | ErrorString (msg : string).

(** [err.Error()], as printed by the [%v] verb. *)
Definition Error (e : error) : string :=
  match e with
  | StatusError _ msg => msg
  | ErrorString msg => msg
  end.

(** [apierrors.IsNotFound] *)
Definition IsNotFound (e : error) : bool :=
  match e with
  | StatusError StatusReasonNotFound _ => true
  | _ => false
  end.

(** The [%d] verb of [fmt] on an integer. *)
Definition fmt_d (z : Z) : string := NilZero.string_of_int (Z.to_int z).

(** [int32] arithmetic: the value is kept in [Z] and reduced into
    [-2^31, 2^31) after every operation. *)
Definition int32_max : Z := 2147483647.
Definition int32_wrap (z : Z) : Z := (z + 2147483648) mod 4294967296 - 2147483648.

(** [corev1.EventTypeNormal], [corev1.EventTypeWarning] *)
Inductive EventType := EventTypeNormal | EventTypeWarning.

(** One call of [record.EventRecorder.Event]: the object the event is
    about (by key), its type, reason and message. *)
Record Event := mkEvent {
  evObject : NamespacedName;
  evType : EventType;
  evReason : string;
  evMessage : string;
}.

(** One line written through the [logr.Logger].  Key/value pairs attached
    to a line are not kept. *)
Inductive LogEntry :=
  | LogInfo (verbosity : nat) (msg : string)
  | LogError (err : error) (msg : string).

(** [controllerutil.OperationResult] *)
Inductive OperationResult :=
  | OperationResultNone
  | OperationResultCreated
  | OperationResultUpdated.

(** A Prometheus counter vector: one counter per tuple of label values.
    Counters only ever receive non-negative integral increments here. *)
Abbreviation CounterVec := (gmap (list string) Z).

Definition counterValue (cv : CounterVec) (lbls : list string) : Z :=
  default 0 (cv !! lbls).

Definition counterAdd (lbls : list string) (v : Z) (cv : CounterVec) : CounterVec :=
  <[lbls := counterValue cv lbls + v]> cv.

(** [query.EndpointType] is a string type. *)
Abbreviation EndpointType := string (only parsing).

(** [metav1.LabelSelector] *)
Record LabelSelectorRequirement := mkLabelSelectorRequirement {
  lsrKey : string;
  lsrOperator : string;
  lsrValues : list string;
}.

Record LabelSelector := mkLabelSelector {
  MatchLabels : Labels;
  MatchExpressions : list LabelSelectorRequirement;
}.

(** [metav1.HasLabel]: the key is present in the label map. *)
Definition HasLabel (lbls : Labels) (key : string) : bool :=
  bool_decide (is_Some (lbls !! key)).

(** ** The surrounding platform

    Types of the Kubernetes API machinery that the controllers use but
    do not define.  They are kept abstract. *)
Class Platform := {
  (** [labels.Selector] *)
  Selector : Type;
  (** [resource.Quantity] *)
  Quantity : Type;
  (** core/v1 payloads that are only passed through *)
  ResourceRequirements : Type;
  Container : Type;
  Volume : Type;
  VolumeMount : Type;
  ContainerPort : Type;
  EnvVar : Type;
  ServicePort : Type;
  SecretKeySelector : Type;
  (** the kind-specific body of a generated [client.Object] *)
  ObjectBody : Type;
  (** custom-resource sub-structures that are only passed through *)
  CacheConfig : Type;
  ObjectStorageConfig : Type;
  IndexCacheConfig : Type;
  CachingBucketConfig : Type;
  (** [controllerutil.MutateFn] closures *)
  MutateFn : Type;
}.

(** The state of the API server. *)
Class Server `{Platform} := {
  Cluster : Type;
}.

(** Operations of the API machinery on those types. *)
Class Machinery `{Server} := {
  (** the [Matches] method of a [labels.Selector] *)
  Matches : Selector -> Labels -> bool;
  (** [metav1.LabelSelectorAsSelector] *)
  LabelSelectorAsSelector : LabelSelector -> error + Selector;
  (** [resource.ParseQuantity] *)
  ParseQuantity : string -> error + Quantity;
}.

(** ** API types *)

Section ApiTypes.
Context `{Platform}.

(** [metav1.ObjectMeta], restricted to the fields the controllers read
    or write. *)
Record OwnerReference := mkOwnerReference {
  orKind : string;
  orName : string;
  orController : bool;
}.

Record ObjectMeta := mkObjectMeta {
  Name : string;
  Namespace : string;
  ObjLabels : Labels;
  Generation : Z;
  OwnerReferences : list OwnerReference;
}.

(** [corev1.Service] *)
Record Service := mkService {
  svcMeta : ObjectMeta;
  svcPorts : list ServicePort;
}.

(** A generated child object, seen through the [client.Object]
    interface: its kind, its metadata and an opaque body. *)
Record Object := mkObject {
  objGVK : string;
  objMeta : ObjectMeta;
  objBody : ObjectBody;
}.

Definition SetNamespace (ns : string) (o : Object) : Object :=
  {| objGVK := objGVK o;
     objMeta := {| Name := Name (objMeta o); Namespace := ns;
                   ObjLabels := ObjLabels (objMeta o);
                   Generation := Generation (objMeta o);
                   OwnerReferences := OwnerReferences (objMeta o) |};
     objBody := objBody o |}.

(** [DeepCopyObject]: values are immutable here, a copy is the value. *)
Definition DeepCopyObject (o : Object) : Object := o.

(** The [Additional] block of pass-through settings (the API type and
    [manifests.Additional] have the same fields). *)
Record Additional := mkAdditional {
  addArgs : list string;
  addContainers : list Container;
  addVolumes : list Volume;
  addVolumeMounts : list VolumeMount;
  addPorts : list ContainerPort;
  addEnv : list EnvVar;
  addServicePorts : list ServicePort;
}.

(** The zero value of [manifests.Additional]. *)
Definition zeroAdditional : Additional :=
  {| addArgs := []; addContainers := []; addVolumes := [];
     addVolumeMounts := []; addPorts := []; addEnv := [];
     addServicePorts := [] |}.

(** [QueryFrontendSpec] *)
Record QueryFrontendSpec := mkQueryFrontendSpec {
  qfReplicas : Z;
  qfImage : option string;
  qfLogLevel : option string;
  qfLogFormat : option string;
  qfResourceRequirements : option ResourceRequirements;
  qfAdditional : Additional;
  qfLogQueriesLongerThan : option string;
  qfCompressResponses : bool;
  qfQueryRangeResponseCacheConfig : option CacheConfig;
  qfQueryRangeSplitInterval : option string;
  qfLabelsSplitInterval : option string;
  qfQueryRangeMaxRetries : Z;
  qfLabelsMaxRetries : Z;
  qfLabelsDefaultTimeRange : option string;
}.

(** [ThanosQuerySpec] and [ThanosQuery] *)
Record ThanosQuerySpec := mkThanosQuerySpec {
  qReplicas : Z;
  qLabels : Labels;
  qImage : option string;
  qLogLevel : option string;
  qLogFormat : option string;
  qResourceRequirements : option ResourceRequirements;
  qAdditional : Additional;
  qPaused : option bool;
  qQuerierReplicaLabels : list string;
  qStoreLabelSelector : option LabelSelector;
  qQueryFrontend : option QueryFrontendSpec;
}.

Record ThanosQuery := mkThanosQuery {
  queryMeta : ObjectMeta;
  querySpec : ThanosQuerySpec;
}.

(** [ShardingStrategy], [ThanosStoreSpec] and [ThanosStore] *)
Record ShardingStrategy := mkShardingStrategy {
  Shards : Z;
  ShardReplicas : Z;
}.

Record ThanosStoreSpec := mkThanosStoreSpec {
  sShardingStrategy : ShardingStrategy;
  sLabels : Labels;
  sImage : option string;
  sLogLevel : option string;
  sLogFormat : option string;
  sArgs : list string;
  sContainers : list Container;
  sEnv : list EnvVar;
  sVolumes : list Volume;
  sVolumeMounts : list VolumeMount;
  sPorts : list ContainerPort;
  sServicePorts : list ServicePort;
  sObjectStorageConfig : ObjectStorageConfig;
  sIndexCacheConfig : option IndexCacheConfig;
  sCachingBucketConfig : option CachingBucketConfig;
  sMinTime : option string;
  sMaxTime : option string;
  sIgnoreDeletionMarksDelay : string;
  sStorageSize : string;
  sPaused : option bool;
}.

Record ThanosStore := mkThanosStore {
  storeMeta : ObjectMeta;
  storeSpec : ThanosStoreSpec;
}.

(** The zero value of [metav1.ObjectMeta]: what a freshly allocated
    custom resource carries before a successful [Get] fills it. *)
Definition zeroObjectMeta : ObjectMeta :=
  {| Name := ""; Namespace := ""; ObjLabels := ∅; Generation := 0;
     OwnerReferences := [] |}.

Definition keyOf (m : ObjectMeta) : NamespacedName :=
  {| nnNamespace := Namespace m; nnName := Name m |}.

(** The parent handed to [SetControllerReference]. *)
Inductive Owner :=
  | OwnerQuery (q : ThanosQuery)
  | OwnerStore (s : ThanosStore).

(** [query.Endpoint] *)
Record Endpoint := mkEndpoint {
  ServiceName : string;
  Port : Z;
  epNamespace : string;
  Type_ : EndpointType;
}.

(** The zero value of [query.Endpoint], as produced by [make]. *)
Definition zeroEndpoint : Endpoint :=
  {| ServiceName := ""; Port := 0; epNamespace := ""; Type_ := "" |}.

(** [manifests.Options] *)
Record Options := mkOptions {
  optName : string;
  optNamespace : string;
  optReplicas : Z;
  optLabels : Labels;
  optImage : option string;
  optLogLevel : option string;
  optLogFormat : option string;
  optResourceRequirements : option ResourceRequirements;
  optAdditional : Additional;
}.

(** [query.Options] *)
Record QueryOptions := mkQueryOptions {
  qoOptions : Options;
  qoReplicaLabels : list string;
  qoTimeout : string;
  qoLookbackDelta : string;
  qoMaxConcurrent : Z;
  qoEndpoints : list Endpoint;
}.

(** [queryfrontend.Options] *)
Record QueryFrontendOptions := mkQueryFrontendOptions {
  qfoOptions : Options;
  qfoQueryService : string;
  qfoQueryPort : Z;
  qfoLogQueriesLongerThan : string;
  qfoCompressResponses : bool;
  qfoResponseCacheConfig : option CacheConfig;
  qfoRangeSplitInterval : string;
  qfoLabelsSplitInterval : string;
  qfoRangeMaxRetries : Z;
  qfoLabelsMaxRetries : Z;
  qfoLabelsDefaultTimeRange : string;
}.

(** [store.StoreOptions] *)
Record StoreOptions := mkStoreOptions {
  soOptions : Options;
  soObjStoreSecret : SecretKeySelector;
  soIndexCacheConfig : option IndexCacheConfig;
  soCachingBucketConfig : option CachingBucketConfig;
  soMin : string;
  soMax : string;
  soIgnoreDeletionMarksDelay : string;
  soAdditional : Additional;
  soStorageSize : Quantity;
  soShards : Z;
}.

End ApiTypes.

(** ** Collaborators that live outside the two controller files *)

(** The operator's own [manifests] packages (templating of child objects,
    label helpers, names).  The controllers only call them; their
    results are taken as given. *)
Class Manifests `{Machinery} := {
  (** [query.Name] and [store.Name], the metric label of each controller *)
  QueryName : string;
  StoreName : string;
  (** [query.HTTPPort] *)
  HTTPPort : Z;
  (** the four endpoint-type marker labels of package [query] *)
  RegularLabel : EndpointType;
  StrictLabel : EndpointType;
  GroupStrictLabel : EndpointType;
  GroupLabel : EndpointType;
  (** the two mandatory labels of a StoreAPI service *)
  DefaultStoreAPILabel : string;
  DefaultStoreAPIValue : string;
  PartOfLabel : string;
  DefaultPartOfLabel : string;
  MergeLabels : Labels -> Labels -> Labels;
  (** returns the gRPC port and whether the service qualifies *)
  IsGrpcServiceWithLabels : Service -> Labels -> Z * bool;
  BuildLabelSelectorFrom : option LabelSelector -> Labels -> error + Selector;
  IsNamespacedResource : Object -> bool;
  (** builds the [controllerutil.MutateFn] closure of an object *)
  MutateFuncFor : Object -> Object -> MutateFn;
  ApplyDefaults : Options -> Options;
  OptionalToString : option string -> string;
  ToSecretKeySelector : ObjectStorageConfig -> SecretKeySelector;
  BuildQuery : QueryOptions -> list Object;
  BuildQueryFrontend : QueryFrontendOptions -> list Object;
  BuildStores : StoreOptions -> list Object;
}.

(** The API server as seen through [client.Client], plus
    [controllerutil]'s two helpers.  [Cluster] is the server-side state;
    reads leave it alone, [CreateOrUpdate] returns the new state. *)
Class Client `{Manifests} := {
  GetThanosQuery : Cluster -> NamespacedName -> error + ThanosQuery;
  GetThanosStore : Cluster -> NamespacedName -> error + ThanosStore;
  (** [List] with [MatchingLabelsSelector] and [InNamespace] *)
  ListServices : Cluster -> Selector -> string -> error + list Service;
  (** [List] with [InNamespace] *)
  ListThanosQueries : Cluster -> string -> error + list ThanosQuery;
  (** [ctrl.SetControllerReference] against the reconciler's scheme:
      the object with the owner reference added, or an error *)
  SetControllerReference : Owner -> Object -> error + Object;
  (** [ctrl.CreateOrUpdate] *)
  CreateOrUpdate : Cluster -> Object -> MutateFn -> (error + OperationResult) * Cluster;
}.

(** ** The world a reconciler acts on *)

Section WorldDefs.
Context `{Client}.

(** Every call made through the client or [controllerutil], in order,
    with its outcome where it has one.  This is bookkeeping of the model
    (the code keeps no such list); it is what "which calls were made"
    refers to. *)
Inductive Call :=
  | CallGet (key : NamespacedName)
  | CallListServices (ns : string)
  | CallListThanosQueries (ns : string)
  | CallSetControllerReference (obj : Object) (failed : bool)
  | CallCreateOrUpdate (obj : Object) (res : error + OperationResult).

(** [controllermetrics.BaseMetrics] and [ThanosQueryMetrics] *)
Record Metrics := mkMetrics {
  ReconciliationsTotal : CounterVec;
  ReconciliationsFailedTotal : CounterVec;
  ClientErrorsTotal : CounterVec;
  EndpointsConfigured : CounterVec;
  ServiceWatchesReconciliationsTotal : Z;
}.

Record World := mkWorld {
  cluster : Cluster;
  calls : list Call;
  events : list Event;
  logs : list LogEntry;
  metrics : Metrics;
}.

(** How a method call ends: it returns a value, or it panics. *)
Inductive Outcome (A : Type) :=
  | Returned (a : A) (w : World)
  | Panicked (msg : string) (w : World).
Arguments Returned {A} a w.
Arguments Panicked {A} msg w.

Definition Op (A : Type) : Type := World -> Outcome A.

Definition ret {A} (a : A) : Op A := fun w => Returned a w.

Definition bind {A B} (m : Op A) (k : A -> Op B) : Op B :=
  fun w => match m w with
           | Returned a w' => k a w'
           | Panicked msg w' => Panicked msg w'
           end.

(** Go [panic] *)
Definition panic {A} (msg : string) : Op A := fun w => Panicked msg w.

(** *** Primitive effects *)

Definition call (c : Call) : Op unit := fun w =>
  Returned tt {| cluster := cluster w; calls := calls w ++ [c];
                 events := events w; logs := logs w; metrics := metrics w |}.

(** [r.Recorder.Event(obj, type, reason, message)] *)
Definition RecorderEvent (obj : ObjectMeta) (t : EventType) (reason msg : string) : Op unit :=
  fun w =>
  Returned tt {| cluster := cluster w; calls := calls w;
                 events := events w ++ [mkEvent (keyOf obj) t reason msg];
                 logs := logs w; metrics := metrics w |}.

Definition log (l : LogEntry) : Op unit := fun w =>
  Returned tt {| cluster := cluster w; calls := calls w; events := events w;
                 logs := logs w ++ [l]; metrics := metrics w |}.

Definition updMetrics (f : Metrics -> Metrics) : Op unit := fun w =>
  Returned tt {| cluster := cluster w; calls := calls w; events := events w;
                 logs := logs w; metrics := f (metrics w) |}.

Definition addReconciliationsTotal (name : string) (v : Z) (m : Metrics) : Metrics :=
  {| ReconciliationsTotal := counterAdd [name] v (ReconciliationsTotal m);
     ReconciliationsFailedTotal := ReconciliationsFailedTotal m;
     ClientErrorsTotal := ClientErrorsTotal m;
     EndpointsConfigured := EndpointsConfigured m;
     ServiceWatchesReconciliationsTotal := ServiceWatchesReconciliationsTotal m |}.

Definition addReconciliationsFailedTotal (name : string) (v : Z) (m : Metrics) : Metrics :=
  {| ReconciliationsTotal := ReconciliationsTotal m;
     ReconciliationsFailedTotal := counterAdd [name] v (ReconciliationsFailedTotal m);
     ClientErrorsTotal := ClientErrorsTotal m;
     EndpointsConfigured := EndpointsConfigured m;
     ServiceWatchesReconciliationsTotal := ServiceWatchesReconciliationsTotal m |}.

Definition addClientErrorsTotal (name : string) (v : Z) (m : Metrics) : Metrics :=
  {| ReconciliationsTotal := ReconciliationsTotal m;
     ReconciliationsFailedTotal := ReconciliationsFailedTotal m;
     ClientErrorsTotal := counterAdd [name] v (ClientErrorsTotal m);
     EndpointsConfigured := EndpointsConfigured m;
     ServiceWatchesReconciliationsTotal := ServiceWatchesReconciliationsTotal m |}.

Definition addEndpointsConfigured (lbls : list string) (v : Z) (m : Metrics) : Metrics :=
  {| ReconciliationsTotal := ReconciliationsTotal m;
     ReconciliationsFailedTotal := ReconciliationsFailedTotal m;
     ClientErrorsTotal := ClientErrorsTotal m;
     EndpointsConfigured := counterAdd lbls v (EndpointsConfigured m);
     ServiceWatchesReconciliationsTotal := ServiceWatchesReconciliationsTotal m |}.

Definition addServiceWatchesReconciliationsTotal (v : Z) (m : Metrics) : Metrics :=
  {| ReconciliationsTotal := ReconciliationsTotal m;
     ReconciliationsFailedTotal := ReconciliationsFailedTotal m;
     ClientErrorsTotal := ClientErrorsTotal m;
     EndpointsConfigured := EndpointsConfigured m;
     ServiceWatchesReconciliationsTotal := ServiceWatchesReconciliationsTotal m + v |}.

(** *** Client calls, each leaving its entry in [calls] *)

Definition clientGetThanosQuery (key : NamespacedName) : Op (error + ThanosQuery) :=
  fun w => bind (call (CallGet key)) (fun _ => ret (GetThanosQuery (cluster w) key)) w.

Definition clientGetThanosStore (key : NamespacedName) : Op (error + ThanosStore) :=
  fun w => bind (call (CallGet key)) (fun _ => ret (GetThanosStore (cluster w) key)) w.

Definition clientListServices (sel : Selector) (ns : string) : Op (error + list Service) :=
  fun w => bind (call (CallListServices ns)) (fun _ => ret (ListServices (cluster w) sel ns)) w.

Definition clientListThanosQueries (ns : string) : Op (error + list ThanosQuery) :=
  fun w => bind (call (CallListThanosQueries ns))
             (fun _ => ret (ListThanosQueries (cluster w) ns)) w.

Definition ctrlSetControllerReference (owner : Owner) (obj : Object) : Op (error + Object) :=
  fun w =>
  let r := SetControllerReference owner obj in
  bind (call (CallSetControllerReference obj (if r is inl _ then true else false))) (fun _ => ret r) w.

Definition ctrlCreateOrUpdate (obj : Object) (f : MutateFn) : Op (error + OperationResult) :=
  fun w =>
  let '(r, c') := CreateOrUpdate (cluster w) obj f in
  Returned r {| cluster := c'; calls := calls w ++ [CallCreateOrUpdate obj r];
                events := events w; logs := logs w; metrics := metrics w |}.

(** The required labels of a StoreAPI service. *)
Definition requiredStoreServiceLabels : Labels :=
  <[PartOfLabel := DefaultPartOfLabel]>
    (<[DefaultStoreAPILabel := DefaultStoreAPIValue]> ∅).

End WorldDefs.

Arguments Returned {_ _ A} a w.
Arguments Panicked {_ _ A} msg w.

Notation "'let*' x ':=' m 'in' k" := (bind m (fun x => k))
  (at level 10, x name, m at level 100, k at level 200, only parsing).

(** ** The ThanosQuery controller *)

Module Query.
Section Controller.
Context `{Client}.

(** [getServiceTypeFromLabel] *)
Definition getServiceTypeFromLabel (objMeta : ObjectMeta) : EndpointType :=
  let etype := RegularLabel in
  if HasLabel (ObjLabels objMeta) StrictLabel then StrictLabel
  else if HasLabel (ObjLabels objMeta) GroupStrictLabel then GroupStrictLabel
  else if HasLabel (ObjLabels objMeta) GroupLabel then GroupLabel
  else etype.

(** [isQueueableStoreService] *)
Definition isQueueableStoreService (obj : Service) : bool :=
  let '(_, ok) := IsGrpcServiceWithLabels obj requiredStoreServiceLabels in ok.

(** The [for i, svc := range services.Items] loop of
    [getStoreAPIServiceEndpoints]: [i] is the index of the head of
    [items], [endpoints] the slice being filled. *)
Fixpoint getStoreAPIServiceEndpoints_loop (query : ThanosQuery) (i : nat)
    (items : list Service) (endpoints : list Endpoint) : Op (list Endpoint) :=
  match items with
  | [] => ret endpoints
  | svc :: rest =>
      let '(port, ok) := IsGrpcServiceWithLabels svc requiredStoreServiceLabels in
      if negb ok then
        let* _ := log (LogError
                  (ErrorString ("service " +:+ Namespace (svcMeta svc) +:+ "/"
                                +:+ Name (svcMeta svc) +:+ " is missing required gRPC port"))
                  "failed to get gRPC port for service") in
        getStoreAPIServiceEndpoints_loop query (S i) rest endpoints
      else
        let etype := getServiceTypeFromLabel (svcMeta svc) in
        let endpoints :=
          <[i := {| ServiceName := Name (svcMeta svc);
                    Port := port;
                    epNamespace := Namespace (svcMeta svc);
                    Type_ := etype |}]> endpoints in
        let* _ := updMetrics (addEndpointsConfigured
                         [etype; Name (queryMeta query); Namespace (queryMeta query)] 1) in
        getStoreAPIServiceEndpoints_loop query (S i) rest endpoints
  end.

(** [getStoreAPIServiceEndpoints]: the endpoints for the StoreAPI
    services that match the query's store label selector. *)
Definition getStoreAPIServiceEndpoints (query : ThanosQuery)
    : Op (list Endpoint * option error) :=
  match BuildLabelSelectorFrom (qStoreLabelSelector (querySpec query))
          requiredStoreServiceLabels with
  | inl err => ret ([], Some err)
  | inr labelSelector =>
      let* r := clientListServices labelSelector (Namespace (queryMeta query)) in
      match r with
      | inl err => ret ([], Some err)
      | inr items =>
          if (length items =? 0)%nat then
            let* _ := RecorderEvent (queryMeta query) EventTypeWarning "NoEndpointsFound"
                 "No StoreAPI services found" in
            ret ([], None)
          else
            let endpoints := replicate (length items) zeroEndpoint in
            let* endpoints := getStoreAPIServiceEndpoints_loop query 0 items endpoints in
            ret (endpoints, None)
      end
  end.

(** [buildQuerier] *)
Definition buildQuerier (query : ThanosQuery) : Op (list Object * option error) :=
  let spec := querySpec query in
  let metaOpts :=
    {| optName := Name (queryMeta query);
       optNamespace := Namespace (queryMeta query);
       optReplicas := qReplicas spec;
       optLabels := MergeLabels (ObjLabels (queryMeta query)) (qLabels spec);
       optImage := qImage spec;
       optLogLevel := qLogLevel spec;
       optLogFormat := qLogFormat spec;
       optResourceRequirements := qResourceRequirements spec;
       optAdditional :=
         {| addArgs := addArgs (qAdditional spec);
            addContainers := addContainers (qAdditional spec);
            addVolumes := addVolumes (qAdditional spec);
            addVolumeMounts := addVolumeMounts (qAdditional spec);
            addPorts := addPorts (qAdditional spec);
            addEnv := addEnv (qAdditional spec);
            addServicePorts := addServicePorts (qAdditional spec) |} |} in
  let* r := getStoreAPIServiceEndpoints query in
  let '(endpoints, err) := r in
  match err with
  | Some e => ret ([], Some e)
  | None =>
      ret (BuildQuery {| qoOptions := metaOpts;
                         qoReplicaLabels := qQuerierReplicaLabels spec;
                         qoTimeout := "15m";
                         qoLookbackDelta := "5m";
                         qoMaxConcurrent := 20;
                         qoEndpoints := endpoints |}, None)
  end.

(** [buildQueryFrontend].  It dereferences [query.Spec.QueryFrontend];
    the only caller checks the pointer first. *)
Definition buildQueryFrontend (query : ThanosQuery) : Op (list Object) :=
  match qQueryFrontend (querySpec query) with
  | None => panic "invalid memory address or nil pointer dereference"
  | Some frontend =>
      let metaOpts :=
        {| optName := Name (queryMeta query) +:+ "-frontend";
           optNamespace := Namespace (queryMeta query);
           optReplicas := qfReplicas frontend;
           optLabels := ObjLabels (queryMeta query);
           optImage := qfImage frontend;
           optLogLevel := qfLogLevel frontend;
           optLogFormat := qfLogFormat frontend;
           optResourceRequirements := qfResourceRequirements frontend;
           optAdditional :=
             {| addArgs := addArgs (qfAdditional frontend);
                addContainers := addContainers (qfAdditional frontend);
                addVolumes := addVolumes (qfAdditional frontend);
                addVolumeMounts := addVolumeMounts (qfAdditional frontend);
                addPorts := addPorts (qfAdditional frontend);
                addEnv := addEnv (qfAdditional frontend);
                addServicePorts := addServicePorts (qfAdditional frontend) |} |} in
      ret (BuildQueryFrontend
             {| qfoOptions := metaOpts;
                qfoQueryService := Name (queryMeta query);
                qfoQueryPort := HTTPPort;
                qfoLogQueriesLongerThan := OptionalToString (qfLogQueriesLongerThan frontend);
                qfoCompressResponses := qfCompressResponses frontend;
                qfoResponseCacheConfig := qfQueryRangeResponseCacheConfig frontend;
                qfoRangeSplitInterval := OptionalToString (qfQueryRangeSplitInterval frontend);
                qfoLabelsSplitInterval := OptionalToString (qfLabelsSplitInterval frontend);
                qfoRangeMaxRetries := qfQueryRangeMaxRetries frontend;
                qfoLabelsMaxRetries := qfLabelsMaxRetries frontend;
                qfoLabelsDefaultTimeRange :=
                  OptionalToString (qfLabelsDefaultTimeRange frontend) |})
  end.

(** The tail of one iteration of the sync loop: copy the object, build
    its mutate function, create or update it. *)
Definition createOrUpdateObject (obj : Object) (errCount : Z) : Op Z :=
  let desired := DeepCopyObject obj in
  let mutateFn := MutateFuncFor obj desired in
  let* r := ctrlCreateOrUpdate obj mutateFn in
  match r with
  | inl err =>
      let* _ := log (LogError err "failed to create or update resource") in
      ret (int32_wrap (errCount + 1))
  | inr op =>
      let* _ := log (LogInfo 1 "resource configured") in
      ret errCount
  end.

(** One iteration of [for _, obj := range objs] in [syncResources];
    the result is the updated [errCount]. *)
Definition syncObject (query : ThanosQuery) (obj : Object) (errCount : Z) : Op Z :=
  if IsNamespacedResource obj then
    let obj := SetNamespace (Namespace (queryMeta query)) obj in
    let* r := ctrlSetControllerReference (OwnerQuery query) obj in
    match r with
    | inl err =>
        let* _ := log (LogError err "failed to set controller owner reference to resource") in
        ret (int32_wrap (errCount + 1))
    | inr obj => createOrUpdateObject obj errCount
    end
  else createOrUpdateObject obj errCount.

Fixpoint syncObjects_loop (query : ThanosQuery) (objs : list Object) (errCount : Z) : Op Z :=
  match objs with
  | [] => ret errCount
  | obj :: rest =>
      let* errCount := syncObject query obj errCount in
      syncObjects_loop query rest errCount
  end.

(** The second half of [syncResources]: the loop over the desired
    objects and the aggregation of its failures. *)
Definition syncObjects (query : ThanosQuery) (objs : list Object) : Op (option error) :=
  let* errCount := syncObjects_loop query objs 0 in
  if errCount >? 0 then
    let* _ := updMetrics (addClientErrorsTotal QueryName errCount) in
    ret (Some (ErrorString ("failed to create or update " +:+ fmt_d errCount
                            +:+ " resources for the querier and query frontend")))
  else ret None.

(** [syncResources] *)
Definition syncResources (query : ThanosQuery) : Op (option error) :=
  let objs : list Object := [] in
  let* r := buildQuerier query in
  let '(querierObjs, err) := r in
  match err with
  | Some e => ret (Some e)
  | None =>
      let objs := objs ++ querierObjs in
      let* objs :=
        match qQueryFrontend (querySpec query) with
        | Some _ =>
            let* _ := RecorderEvent (queryMeta query) EventTypeNormal "BuildingQueryFrontend"
                        "Building Query Frontend resources" in
            let* frontendObjs := buildQueryFrontend query in
            ret (objs ++ frontendObjs)
        | None => ret objs
        end in
      syncObjects query objs
  end.

(** [Reconcile] *)
Definition Reconcile (req : Request) : Op (Result * option error) :=
  let* _ := updMetrics (addReconciliationsTotal QueryName 1) in
  let* r := clientGetThanosQuery (reqNamespacedName req) in
  match r with
  | inl err =>
      let* _ := updMetrics (addClientErrorsTotal QueryName 1) in
      if IsNotFound err then
        let* _ := log (LogInfo 0 "thanos query resource not found. ignoring since object may be deleted") in
        ret (emptyResult, None)
      else
        let* _ := log (LogError err "failed to get ThanosQuery") in
        let* _ := updMetrics (addReconciliationsFailedTotal QueryName 1) in
        let* _ := RecorderEvent zeroObjectMeta EventTypeWarning "GetFailed"
             "Failed to get ThanosQuery resource" in
        ret (emptyResult, Some err)
  | inr query =>
      if match qPaused (querySpec query) with Some b => b | None => false end then
        let* _ := log (LogInfo 0 "reconciliation is paused for ThanosQuery resource") in
        let* _ := RecorderEvent (queryMeta query) EventTypeNormal "Paused"
             "Reconciliation is paused for ThanosQuery resource" in
        ret (emptyResult, None)
      else
        let* err := syncResources query in
        match err with
        | Some e =>
            let* _ := updMetrics (addReconciliationsFailedTotal QueryName 1) in
            let* _ := RecorderEvent (queryMeta query) EventTypeWarning "SyncFailed"
                 ("Failed to sync resources: " +:+ Error e) in
            ret (emptyResult, Some e)
        | None => ret (emptyResult, None)
        end
  end.

(** *** Watching services *)

(** The four kinds of event a watch delivers ([event.CreateEvent],
    [UpdateEvent], [DeleteEvent], [GenericEvent]); an update carries the
    object before and after. *)
Inductive WatchEvent :=
  | CreateEvent (obj : Service)
  | UpdateEvent (objectOld objectNew : Service)
  | DeleteEvent (obj : Service)
  | GenericEvent (obj : Service).

(** [predicate.Predicate]: one verdict per kind of event. *)
Record Predicate := mkPredicate {
  pCreate : Service -> bool;
  pUpdate : Service -> Service -> bool;
  pDelete : Service -> bool;
  pGeneric : Service -> bool;
}.

Definition admits (p : Predicate) (ev : WatchEvent) : bool :=
  match ev with
  | CreateEvent o => pCreate p o
  | UpdateEvent old new => pUpdate p old new
  | DeleteEvent o => pDelete p o
  | GenericEvent o => pGeneric p o
  end.

(** [predicate.NewPredicateFuncs]: the filter is applied to the object
    of the event, for an update to the new object. *)
Definition NewPredicateFuncs (filter : Service -> bool) : Predicate :=
  {| pCreate := filter;
     pUpdate := fun _ new => filter new;
     pDelete := filter;
     pGeneric := filter |}.

(** [predicate.LabelSelectorPredicate] *)
Definition LabelSelectorPredicate (s : LabelSelector) : error + Predicate :=
  match LabelSelectorAsSelector s with
  | inl err => inl err
  | inr selector =>
      inr (NewPredicateFuncs (fun o => Matches selector (ObjLabels (svcMeta o))))
  end.

(** [predicate.LabelChangedPredicate]: only updates are inspected. *)
Definition LabelChangedPredicate : Predicate :=
  {| pCreate := fun _ => true;
     pUpdate := fun old new =>
       negb (bool_decide (ObjLabels (svcMeta new) = ObjLabels (svcMeta old)));
     pDelete := fun _ => true;
     pGeneric := fun _ => true |}.

(** [predicate.GenerationChangedPredicate]: only updates are inspected. *)
Definition GenerationChangedPredicate : Predicate :=
  {| pCreate := fun _ => true;
     pUpdate := fun old new =>
       negb (Generation (svcMeta new) =? Generation (svcMeta old));
     pDelete := fun _ => true;
     pGeneric := fun _ => true |}.

(** [predicate.And] and [predicate.Or] *)
Definition And (ps : list Predicate) : Predicate :=
  {| pCreate := fun o => forallb (fun p => pCreate p o) ps;
     pUpdate := fun old new => forallb (fun p => pUpdate p old new) ps;
     pDelete := fun o => forallb (fun p => pDelete p o) ps;
     pGeneric := fun o => forallb (fun p => pGeneric p o) ps |}.

Definition Or (ps : list Predicate) : Predicate :=
  {| pCreate := fun o => existsb (fun p => pCreate p o) ps;
     pUpdate := fun old new => existsb (fun p => pUpdate p old new) ps;
     pDelete := fun o => existsb (fun p => pDelete p o) ps;
     pGeneric := fun o => existsb (fun p => pGeneric p o) ps |}.

(** The predicates composed in [SetupWithManager]. *)
Definition withLabelChangedPredicate (servicePredicate : Predicate) : Predicate :=
  And [servicePredicate; LabelChangedPredicate].

Definition withGenerationChangePredicate (servicePredicate : Predicate) : Predicate :=
  And [servicePredicate; GenerationChangedPredicate; servicePredicate].

Definition withPredicate (servicePredicate : Predicate) : Predicate :=
  Or [withLabelChangedPredicate servicePredicate;
      withGenerationChangePredicate servicePredicate].

(** [SetupWithManager], up to the point where the controller is handed
    to the manager: the predicate guarding the service watch, or the
    error of building it. *)
Definition SetupWithManager : error + Predicate :=
  match LabelSelectorPredicate
          {| MatchLabels := requiredStoreServiceLabels; MatchExpressions := [] |} with
  | inl err => inl err
  | inr servicePredicate => inr (withPredicate servicePredicate)
  end.

(** The loop of [enqueueForService] over the listed queries. *)
Fixpoint enqueueForService_loop (obj : Service) (items : list ThanosQuery)
    (requests : list Request) : Op (list Request) :=
  match items with
  | [] => ret requests
  | query :: rest =>
      match BuildLabelSelectorFrom (qStoreLabelSelector (querySpec query))
              requiredStoreServiceLabels with
      | inl err =>
          let* _ := log (LogError err
                           "failed to build label selector from store label selector") in
          enqueueForService_loop obj rest requests
      | inr selector =>
          if Matches selector (ObjLabels (svcMeta obj)) then
            enqueueForService_loop obj rest
              (requests ++ [ {| reqNamespacedName :=
                                  {| nnNamespace := Namespace (queryMeta query);
                                     nnName := Name (queryMeta query) |} |} ])
          else enqueueForService_loop obj rest requests
      end
  end.

(** The map function of [enqueueForService]: the requests for the
    ThanosQuery instances that match the service. *)
Definition enqueueForService (obj : Service) : Op (list Request) :=
  if negb (isQueueableStoreService obj) then ret []
  else
    let* r := clientListThanosQueries (Namespace (svcMeta obj)) in
    match r with
    | inl err => ret []
    | inr items =>
        let* requests := enqueueForService_loop obj items [] in
        let* _ := updMetrics
                    (addServiceWatchesReconciliationsTotal (Z.of_nat (length requests))) in
        ret requests
    end.

(** [handler.EnqueueRequestsFromMapFunc]: the map function is applied to
    the object of the event (for an update to the old and then the new
    object) and every request is added to the queue once. *)
Definition addOnce (reqs : list Request) (seen : list Request) : list Request :=
  fold_left (fun acc r => if decide (r ∈ acc) then acc else acc ++ [r]) reqs seen.

Definition EnqueueRequestsFromMapFunc (mapFn : Service -> Op (list Request))
    (ev : WatchEvent) : Op (list Request) :=
  match ev with
  | CreateEvent o | DeleteEvent o | GenericEvent o =>
      let* reqs := mapFn o in ret (addOnce reqs [])
  | UpdateEvent old new =>
      let* reqsOld := mapFn old in
      let* reqsNew := mapFn new in
      ret (addOnce reqsNew (addOnce reqsOld []))
  end.

(** The service watch registered by [SetupWithManager]: an event reaches
    the handler only when the predicate admits it; the result is the
    list of requests put on the work queue. *)
Definition serviceWatch (p : Predicate) (ev : WatchEvent) : Op (list Request) :=
  if admits p ev then EnqueueRequestsFromMapFunc enqueueForService ev
  else ret [].

End Controller.
End Query.

(** ** The ThanosStore controller *)

Module Store.
Section Controller.
Context `{Client}.

(** [resource.MustParse]: the parsed quantity, or a panic when the string
    does not parse. *)
Definition MustParse (str : string) : Op Quantity :=
  match ParseQuantity str with
  | inl err => panic ("cannot parse '" +:+ str +:+ "': " +:+ Error err)
  | inr q => ret q
  end.

(** [buildStore] *)
Definition buildStore (store : ThanosStore) : Op (list Object) :=
  let spec := storeSpec store in
  let opts :=
    ApplyDefaults
      {| optName := Name (storeMeta store);
         optNamespace := Namespace (storeMeta store);
         optReplicas := ShardReplicas (sShardingStrategy spec);
         optLabels := MergeLabels (ObjLabels (storeMeta store)) (sLabels spec);
         optImage := sImage spec;
         optLogLevel := sLogLevel spec;
         optLogFormat := sLogFormat spec;
         optResourceRequirements := None;
         optAdditional := zeroAdditional |} in
  let additional :=
    {| addArgs := sArgs spec;
       addContainers := sContainers spec;
       addVolumes := sVolumes spec;
       addVolumeMounts := sVolumeMounts spec;
       addPorts := sPorts spec;
       addEnv := sEnv spec;
       addServicePorts := sServicePorts spec |} in
  let* storageSize := MustParse (sStorageSize spec) in
  ret (BuildStores
         {| soOptions := opts;
            soObjStoreSecret := ToSecretKeySelector (sObjectStorageConfig spec);
            soIndexCacheConfig := sIndexCacheConfig spec;
            soCachingBucketConfig := sCachingBucketConfig spec;
            soMin := OptionalToString (sMinTime spec);
            soMax := OptionalToString (sMaxTime spec);
            soIgnoreDeletionMarksDelay := sIgnoreDeletionMarksDelay spec;
            soAdditional := additional;
            soStorageSize := storageSize;
            soShards := Shards (sShardingStrategy spec) |}).

(** The tail of one iteration of the sync loop. *)
Definition createOrUpdateObject (store : ThanosStore) (obj : Object) (errCount : Z) : Op Z :=
  let desired := DeepCopyObject obj in
  let mutateFn := MutateFuncFor obj desired in
  let* r := ctrlCreateOrUpdate obj mutateFn in
  match r with
  | inl err =>
      let* _ := log (LogError err "failed to create or update resource") in
      let errCount := int32_wrap (errCount + 1) in
      let* _ := RecorderEvent (storeMeta store) EventTypeWarning "SyncFailed"
                  ("Failed to sync resource " +:+ Name (objMeta obj) +:+ ": " +:+ Error err) in
      ret errCount
  | inr op =>
      let* _ := log (LogInfo 1 "resource configured") in
      ret errCount
  end.

(** One iteration of [for _, obj := range objs] in [syncResources]. *)
Definition syncObject (store : ThanosStore) (obj : Object) (errCount : Z) : Op Z :=
  if IsNamespacedResource obj then
    let obj := SetNamespace (Namespace (storeMeta store)) obj in
    let* r := ctrlSetControllerReference (OwnerStore store) obj in
    match r with
    | inl err =>
        let* _ := log (LogError err "failed to set controller owner reference to resource") in
        ret (int32_wrap (errCount + 1))
    | inr obj => createOrUpdateObject store obj errCount
    end
  else createOrUpdateObject store obj errCount.

Fixpoint syncObjects_loop (store : ThanosStore) (objs : list Object) (errCount : Z) : Op Z :=
  match objs with
  | [] => ret errCount
  | obj :: rest =>
      let* errCount := syncObject store obj errCount in
      syncObjects_loop store rest errCount
  end.

(** The second half of [syncResources]: the loop over the desired
    objects and the aggregation of its failures. *)
Definition syncObjects (store : ThanosStore) (objs : list Object) : Op (option error) :=
  let* errCount := syncObjects_loop store objs 0 in
  if errCount >? 0 then
    let* _ := updMetrics (addClientErrorsTotal StoreName errCount) in
    ret (Some (ErrorString ("failed to create or update " +:+ fmt_d errCount
                            +:+ " resources for the store")))
  else ret None.

(** [syncResources] *)
Definition syncResources (store : ThanosStore) : Op (option error) :=
  let objs : list Object := [] in
  let* desiredObjs := buildStore store in
  let objs := objs ++ desiredObjs in
  syncObjects store objs.

(** [Reconcile] *)
Definition Reconcile (req : Request) : Op (Result * option error) :=
  let* _ := updMetrics (addReconciliationsTotal StoreName 1) in
  let* r := clientGetThanosStore (reqNamespacedName req) in
  match r with
  | inl err =>
      let* _ := updMetrics (addClientErrorsTotal StoreName 1) in
      if IsNotFound err then
        let* _ := log (LogInfo 0 "thanos store resource not found. ignoring since object may be deleted") in
        ret (emptyResult, None)
      else
        let* _ := log (LogError err "failed to get ThanosStore") in
        let* _ := updMetrics (addReconciliationsFailedTotal StoreName 1) in
        let* _ := RecorderEvent zeroObjectMeta EventTypeWarning "GetFailed"
                    "Failed to get ThanosStore resource" in
        ret (emptyResult, Some err)
  | inr store =>
      match sPaused (storeSpec store) with
      | Some true =>
          let* _ := log (LogInfo 0 "reconciliation is paused for ThanosStore") in
          let* _ := RecorderEvent (storeMeta store) EventTypeNormal "Paused"
                      "Reconciliation is paused for ThanosStore resource" in
          ret (emptyResult, None)
      | _ =>
          let* err := syncResources store in
          match err with
          | Some e =>
              let* _ := updMetrics (addReconciliationsFailedTotal StoreName 1) in
              let* _ := RecorderEvent (storeMeta store) EventTypeWarning "SyncFailed"
                          ("Failed to sync resources: " +:+ Error e) in
              ret (emptyResult, Some e)
          | None => ret (emptyResult, None)
          end
      end
  end.

End Controller.
End Store.

(** ** A small in-memory instance

    A concrete platform, manifest package and client, in the manner of
    the fake client of a controller test suite.  It is used to run the
    controllers on concrete inputs; the theorems below hold for every
    instance, not only this one. *)

Module Sample.

(** Services carry named ports; every other payload is trivial. *)
Definition platform : Platform :=
  {| Selector := Labels;
     Quantity := Z;
     ResourceRequirements := unit;
     Container := unit;
     Volume := unit;
     VolumeMount := unit;
     ContainerPort := unit;
     EnvVar := unit;
     ServicePort := string * Z;
     SecretKeySelector := unit;
     ObjectBody := unit;
     CacheConfig := unit;
     ObjectStorageConfig := unit;
     IndexCacheConfig := unit;
     CachingBucketConfig := unit;
     MutateFn := unit |}.

#[local] Existing Instance platform.

(** The server keeps the custom resources, the services and the child
    objects written so far.  Writes to an object whose kind is listed in
    [rejected] fail; a namespace listed in [unlistable] cannot be listed;
    when [unavailable] is set every [Get] fails. *)
Record FakeCluster := mkFakeCluster {
  queries : list ThanosQuery;
  stores : list ThanosStore;
  services : list Service;
  objects : list Object;
  rejected : list string;
  unlistable : list string;
  unavailable : bool;
}.

Definition server : Server := {| Cluster := FakeCluster |}.

#[local] Existing Instance server.

(** A selector is a set of required label values; the only quantities
    understood are ["1Gi"] and ["10Gi"]. *)
Definition machinery : Machinery :=
  {| Matches := fun sel lbls => bool_decide ((sel : Labels) ⊆ lbls);
     LabelSelectorAsSelector := fun ls =>
       match MatchExpressions ls with
       | [] => inr (MatchLabels ls)
       | _ :: _ => inl (ErrorString "unsupported match expression")
       end;
     ParseQuantity := fun s =>
       if decide (s = "1Gi") then inr 1073741824
       else if decide (s = "10Gi") then inr 10737418240
       else inl (ErrorString "quantities must match the regular expression") |}.

#[local] Existing Instance machinery.

Definition object (kind name : string) : Object :=
  {| objGVK := kind;
     objMeta := {| Name := name; Namespace := ""; ObjLabels := ∅; Generation := 0;
                   OwnerReferences := [] |};
     objBody := tt |}.

Definition grpcPort (svc : Service) : option Z :=
  snd <$> List.find (fun p => bool_decide (fst p = "grpc")) (svcPorts svc).

Definition manifests : Manifests :=
  {| QueryName := "thanos-query";
     StoreName := "thanos-store";
     HTTPPort := 9090;
     RegularLabel := "operator.thanos.io/endpoint";
     StrictLabel := "operator.thanos.io/endpoint-strict";
     GroupStrictLabel := "operator.thanos.io/endpoint-group-strict";
     GroupLabel := "operator.thanos.io/endpoint-group";
     DefaultStoreAPILabel := "operator.thanos.io/store-api";
     DefaultStoreAPIValue := "true";
     PartOfLabel := "app.kubernetes.io/part-of";
     DefaultPartOfLabel := "thanos";
     MergeLabels := fun a b => b ∪ a;
     IsGrpcServiceWithLabels := fun svc required =>
       if bool_decide (required ⊆ ObjLabels (svcMeta svc)) then
         match grpcPort svc with
         | Some p => (p, true)
         | None => (0, false)
         end
       else (0, false);
     BuildLabelSelectorFrom := fun sel required =>
       match sel with
       | None => inr required
       | Some ls =>
           match MatchExpressions ls with
           | [] => inr (required ∪ MatchLabels ls)
           | _ :: _ => inl (ErrorString "unsupported match expression")
           end
       end;
     IsNamespacedResource := fun obj => negb (bool_decide (objGVK obj = "ClusterRole"));
     MutateFuncFor := fun _ _ => tt;
     ApplyDefaults := fun o => o;
     OptionalToString := fun o => default "" o;
     ToSecretKeySelector := fun c => c;
     BuildQuery := fun o =>
       [object "ServiceAccount" (optName (qoOptions o));
        object "Deployment" (optName (qoOptions o));
        object "Service" (optName (qoOptions o))];
     BuildQueryFrontend := fun o =>
       [object "Deployment" (optName (qfoOptions o));
        object "Service" (optName (qfoOptions o))];
     BuildStores := fun o =>
       [object "ServiceAccount" (optName (soOptions o));
        object "StatefulSet" (optName (soOptions o));
        object "Service" (optName (soOptions o))] |}.

#[local] Existing Instance manifests.

Definition hasKey (key : NamespacedName) (m : ObjectMeta) : bool :=
  bool_decide (Namespace m = nnNamespace key) && bool_decide (Name m = nnName key).

Definition sameObject (a b : Object) : bool :=
  bool_decide (objGVK a = objGVK b) && bool_decide (Name (objMeta a) = Name (objMeta b))
  && bool_decide (Namespace (objMeta a) = Namespace (objMeta b)).

Definition fakeGet {A} (unavail : bool) (key : NamespacedName) (meta : A -> ObjectMeta)
    (l : list A) : error + A :=
  if unavail then inl (StatusError (StatusReasonOther "ServiceUnavailable") "unavailable")
  else match List.find (fun x => hasKey key (meta x)) l with
       | Some x => inr x
       | None => inl (StatusError StatusReasonNotFound "not found")
       end.

Definition fakeCreateOrUpdate (c : FakeCluster) (obj : Object)
    : (error + OperationResult) * FakeCluster :=
  if bool_decide (objGVK obj ∈ rejected c) then
    (inl (StatusError (StatusReasonOther "Forbidden") "forbidden"), c)
  else
    let others := List.filter (fun o => negb (sameObject o obj)) (objects c) in
    let op := if existsb (sameObject obj) (objects c)
              then OperationResultUpdated else OperationResultCreated in
    (inr op,
     {| queries := queries c; stores := stores c; services := services c;
        objects := others ++ [obj]; rejected := rejected c;
        unlistable := unlistable c; unavailable := unavailable c |}).

Definition ownerKey (owner : Owner) : string * string :=
  match owner with
  | OwnerQuery q => ("ThanosQuery", Name (queryMeta q))
  | OwnerStore s => ("ThanosStore", Name (storeMeta s))
  end.

(** The scheme knows every kind but ["Unregistered"]. *)
Definition fakeSetControllerReference (owner : Owner) (obj : Object) : error + Object :=
  if bool_decide (objGVK obj = "Unregistered") then
    inl (ErrorString "no kind is registered for the type")
  else
    inr {| objGVK := objGVK obj;
           objMeta := {| Name := Name (objMeta obj);
                         Namespace := Namespace (objMeta obj);
                         ObjLabels := ObjLabels (objMeta obj);
                         Generation := Generation (objMeta obj);
                         OwnerReferences :=
                           OwnerReferences (objMeta obj)
                           ++ [ {| orKind := fst (ownerKey owner);
                                   orName := snd (ownerKey owner);
                                   orController := true |} ] |};
           objBody := objBody obj |}.

Definition client : Client :=
  {|      GetThanosQuery := fun c key => fakeGet (unavailable c) key queryMeta (queries c);
     GetThanosStore := fun c key => fakeGet (unavailable c) key storeMeta (stores c);
     ListServices := fun c sel ns =>
       if bool_decide (ns ∈ unlistable c) then inl (ErrorString "list failed")
       else inr (List.filter
                   (fun s => bool_decide (Namespace (svcMeta s) = ns)
                             && Matches sel (ObjLabels (svcMeta s)))
                   (services c));
     ListThanosQueries := fun c ns =>
       if bool_decide (ns ∈ unlistable c) then inl (ErrorString "list failed")
       else inr (List.filter (fun q => bool_decide (Namespace (queryMeta q) = ns))
                   (queries c));
     SetControllerReference := fakeSetControllerReference;
     CreateOrUpdate := fun c obj _ => fakeCreateOrUpdate c obj |}.

#[local] Existing Instance client.

(** *** Sample resources *)

Definition meta (ns name : string) (lbls : Labels) : ObjectMeta :=
  {| Name := name; Namespace := ns; ObjLabels := lbls; Generation := 1;
     OwnerReferences := [] |}.

(** A StoreAPI service with a gRPC port, marked Strict and Group. *)
Definition svcStrict : Service :=
  {| svcMeta := meta "ns-a" "store-a"
       (<[StrictLabel := "true"]> (<[GroupLabel := "true"]> requiredStoreServiceLabels));
     svcPorts := [("grpc", 10901)] |}.

(** A service carrying the required labels but no gRPC port. *)
Definition svcNoGrpc : Service :=
  {| svcMeta := meta "ns-a" "store-b" requiredStoreServiceLabels;
     svcPorts := [("http", 10902)] |}.

(** [svcStrict] with one more annotation-like change that touches neither
    labels nor generation: another port. *)
Definition svcStrictTouched : Service :=
  {| svcMeta := svcMeta svcStrict; svcPorts := [("grpc", 10901); ("http", 10902)] |}.

Definition querySpec0 : ThanosQuerySpec :=
  {| qReplicas := 1; qLabels := ∅; qImage := None; qLogLevel := None;
     qLogFormat := None; qResourceRequirements := None;
     qAdditional := zeroAdditional; qPaused := None;
     qQuerierReplicaLabels := []; qStoreLabelSelector := None;
     qQueryFrontend := None |}.

Definition withPaused (p : option bool) (sp : ThanosQuerySpec) : ThanosQuerySpec :=
  {| qReplicas := qReplicas sp; qLabels := qLabels sp; qImage := qImage sp;
     qLogLevel := qLogLevel sp; qLogFormat := qLogFormat sp;
     qResourceRequirements := qResourceRequirements sp;
     qAdditional := qAdditional sp; qPaused := p;
     qQuerierReplicaLabels := qQuerierReplicaLabels sp;
     qStoreLabelSelector := qStoreLabelSelector sp;
     qQueryFrontend := qQueryFrontend sp |}.

Definition withSelector (ls : option LabelSelector) (sp : ThanosQuerySpec) : ThanosQuerySpec :=
  {| qReplicas := qReplicas sp; qLabels := qLabels sp; qImage := qImage sp;
     qLogLevel := qLogLevel sp; qLogFormat := qLogFormat sp;
     qResourceRequirements := qResourceRequirements sp;
     qAdditional := qAdditional sp; qPaused := qPaused sp;
     qQuerierReplicaLabels := qQuerierReplicaLabels sp;
     qStoreLabelSelector := ls;
     qQueryFrontend := qQueryFrontend sp |}.

(** ["q1"]: default selector, pause flag absent. *)
Definition q1 : ThanosQuery :=
  {| queryMeta := meta "ns-a" "q1" ∅; querySpec := querySpec0 |}.

(** ["q2"]: a selector that cannot be built. *)
Definition q2 : ThanosQuery :=
  {| queryMeta := meta "ns-a" "q2" ∅;
     querySpec := withSelector
       (Some {| MatchLabels := ∅;
                MatchExpressions := [mkLabelSelectorRequirement "tier" "Near" []] |})
       querySpec0 |}.

(** ["q3"]: selects only services of another tenant. *)
Definition q3 : ThanosQuery :=
  {| queryMeta := meta "ns-a" "q3" ∅;
     querySpec := withSelector
       (Some {| MatchLabels := {["tenant" := "other"]}; MatchExpressions := [] |})
       querySpec0 |}.

(** ["q1"] with the pause flag set. *)
Definition q1Paused : ThanosQuery :=
  {| queryMeta := meta "ns-a" "q1" ∅; querySpec := withPaused (Some true) querySpec0 |}.

Definition storeSpec0 (size : string) (paused : option bool) : ThanosStoreSpec :=
  {| sShardingStrategy := {| Shards := 1; ShardReplicas := 1 |};
     sLabels := ∅; sImage := None; sLogLevel := None; sLogFormat := None;
     sArgs := []; sContainers := []; sEnv := []; sVolumes := [];
     sVolumeMounts := []; sPorts := []; sServicePorts := [];
     sObjectStorageConfig := tt; sIndexCacheConfig := None;
     sCachingBucketConfig := None; sMinTime := None; sMaxTime := None;
     sIgnoreDeletionMarksDelay := "24h"; sStorageSize := size; sPaused := paused |}.

(** ["s1"]: a store whose storage size is not a quantity. *)
Definition s1 : ThanosStore :=
  {| storeMeta := meta "ns-a" "s1" ∅; storeSpec := storeSpec0 "ten gigs" None |}.

(** ["s1"] with a proper size and the pause flag set. *)
Definition s1Paused : ThanosStore :=
  {| storeMeta := meta "ns-a" "s1" ∅; storeSpec := storeSpec0 "10Gi" (Some true) |}.

Definition noMetrics : Metrics :=
  {| ReconciliationsTotal := ∅; ReconciliationsFailedTotal := ∅;
     ClientErrorsTotal := ∅; EndpointsConfigured := ∅;
     ServiceWatchesReconciliationsTotal := 0 |}.

Definition worldOf (c : FakeCluster) : World :=
  {| cluster := c; calls := []; events := []; logs := []; metrics := noMetrics |}.

(** Nothing in the cluster. *)
Definition emptyWorld : World :=
  worldOf {| queries := []; stores := []; services := []; objects := [];
             rejected := []; unlistable := []; unavailable := false |}.

(** Three queries, both services, and a server that refuses to write
    objects of kind ["Service"]. *)
Definition busyWorld : World :=
  worldOf {| queries := [q1; q2; q3]; stores := [s1];
             services := [svcNoGrpc; svcStrict]; objects := [];
             rejected := ["Service"]; unlistable := []; unavailable := false |}.

(** The paused resources. *)
Definition pausedWorld : World :=
  worldOf {| queries := [q1Paused]; stores := [s1Paused];
             services := [svcStrict]; objects := [];
             rejected := []; unlistable := []; unavailable := false |}.

(** A server on which namespace ["ns-a"] cannot be listed. *)
Definition unlistableWorld : World :=
  worldOf {| queries := [q1]; stores := []; services := [svcStrict]; objects := [];
             rejected := []; unlistable := ["ns-a"]; unavailable := false |}.

Definition requestQ1 : Request := mkRequest (mkNamespacedName "ns-a" "q1").
Definition requestS1 : Request := mkRequest (mkNamespacedName "ns-a" "s1").

(** Five desired objects, one of them of the refused kind. *)
Definition fiveObjects : list Object :=
  [object "ServiceAccount" "q1"; object "Deployment" "q1"; object "Service" "q1";
   object "ConfigMap" "q1"; object "ClusterRole" "q1"].

(** *** More sample resources *)

(** ["s2"]: a store with a proper storage size, not paused. *)
Definition s2 : ThanosStore :=
  {| storeMeta := meta "ns-a" "s2" ∅; storeSpec := storeSpec0 "10Gi" None |}.

(** A healthy cluster: one query, one store, one StoreAPI service, and a
    server that accepts every write. *)
Definition healthyWorld : World :=
  worldOf {| queries := [q1]; stores := [s2]; services := [svcStrict]; objects := [];
             rejected := []; unlistable := []; unavailable := false |}.

Definition requestQ2 : Request := mkRequest (mkNamespacedName "ns-a" "q2").
Definition requestS2 : Request := mkRequest (mkNamespacedName "ns-a" "s2").

End Sample.

(** ** Vocabulary of the statements

    Notions used to state the properties; none of them is part of the
    controllers. *)

Section Vocabulary.
Context `{Client}.

(** The world right after the preamble of a pass: the pass counter has
    been bumped and the resource has been fetched. *)
Definition fetched (name : string) (key : NamespacedName) (w : World) : World :=
  {| cluster := cluster w;
     calls := calls w ++ [CallGet key];
     events := events w;
     logs := logs w;
     metrics := addReconciliationsTotal name 1 (metrics w) |}.

(** The world in which a call ended, however it ended. *)
Definition finalWorld {A} (o : Outcome A) : World :=
  match o with
  | Returned _ w => w
  | Panicked _ w => w
  end.

(** The value a call returned, if it returned. *)
Definition returned {A} (o : Outcome A) : option A :=
  match o with
  | Returned a _ => Some a
  | Panicked _ _ => None
  end.

(** An operation that records no ["Paused"] event, whatever else it
    does and however it ends. *)
Definition recordsNoPause {A} (m : Op A) : Prop :=
  ∀ w, ∃ evs, events (finalWorld (m w)) = events w ++ evs
              ∧ Forall (fun e => evReason e ≠ "Paused") evs.

(** A call of the sync loop that failed: an owner reference that could
    not be set, or a create-or-update that returned an error. *)
Definition isFailure (c : Call) : bool :=
  match c with
  | CallSetControllerReference _ failed => failed
  | CallCreateOrUpdate _ (inl _) => true
  | _ => false
  end.

(** A create-or-update that went through. *)
Definition isApplied (c : Call) : bool :=
  match c with
  | CallCreateOrUpdate _ (inr _) => true
  | _ => false
  end.

Definition isSyncCall (c : Call) : bool :=
  match c with
  | CallSetControllerReference _ _ | CallCreateOrUpdate _ _ => true
  | _ => false
  end.

Definition failures (tr : list Call) : nat := length (List.filter isFailure tr).
Definition applied (tr : list Call) : nat := length (List.filter isApplied tr).

(** The cluster after the create-or-update calls of a trace, and
    nothing else, have been made on it in order. *)
Definition replay (c : Cluster) (tr : list Call) : Cluster :=
  fold_left
    (fun c k =>
       match k with
       | CallCreateOrUpdate obj _ =>
           snd (CreateOrUpdate c obj (MutateFuncFor obj (DeepCopyObject obj)))
       | _ => c
       end) tr c.

(** What one iteration of a sync loop does: it returns, it leaves one or
    two sync calls in the trace, and it either counts one failure or
    applies one object. *)
Definition iteration (step : Z → Op Z) (keepsEvents : bool) : Prop :=
  ∀ errCount w, ∃ (failed : bool) tr w',
    step errCount w
    = Returned (if failed then int32_wrap (errCount + 1) else errCount) w'
    ∧ calls w' = calls w ++ tr
    ∧ failures tr = (if failed then 1 else 0)%nat
    ∧ applied tr = (if failed then 0 else 1)%nat
    ∧ forallb isSyncCall tr = true
    ∧ cluster w' = replay (cluster w) tr
    ∧ metrics w' = metrics w
    ∧ (keepsEvents = true → events w' = events w).

(** A listed service that advertises a gRPC port. *)
Definition hasGrpcPort (svc : Service) : bool :=
  snd (IsGrpcServiceWithLabels svc requiredStoreServiceLabels).

(** The metrics after one endpoints-configured increment for each listed
    service that has a gRPC port, and for no other. *)
Definition countEndpoints (query : ThanosQuery) (items : list Service) (m : Metrics)
    : Metrics :=
  fold_left
    (fun m svc =>
       addEndpointsConfigured
         [Query.getServiceTypeFromLabel (svcMeta svc);
          Name (queryMeta query); Namespace (queryMeta query)] 1 m)
    (List.filter hasGrpcPort items) m.

(** A query selects a service when its effective selector can be built
    and matches the labels of the service. *)
Definition selects (obj : Service) (query : ThanosQuery) : bool :=
  match BuildLabelSelectorFrom (qStoreLabelSelector (querySpec query))
          requiredStoreServiceLabels with
  | inl _ => false
  | inr selector => Matches selector (ObjLabels (svcMeta obj))
  end.

(** The reconciliation request for a query. *)
Definition requestFor (query : ThanosQuery) : Request :=
  {| reqNamespacedName := keyOf (queryMeta query) |}.

(** The services an event is about. *)
Definition eventObjects (ev : Query.WatchEvent) : list Service :=
  match ev with
  | Query.CreateEvent o | Query.DeleteEvent o | Query.GenericEvent o => [o]
  | Query.UpdateEvent old new => [old; new]
  end.

End Vocabulary.

(** ** Further vocabulary *)

Section MoreVocabulary.
Context `{Client}.

(** The endpoint built for a listed service that has a gRPC port. *)
Definition endpointFor (svc : Service) : Endpoint :=
  {| ServiceName := Name (svcMeta svc);
     Port := fst (IsGrpcServiceWithLabels svc requiredStoreServiceLabels);
     epNamespace := Namespace (svcMeta svc);
     Type_ := Query.getServiceTypeFromLabel (svcMeta svc) |}.

(** What a part of a pass may do to the pass-level bookkeeping: it leaves
    the reconciliations-total and failed-reconciliations counters alone
    and only ever adds events. *)
Definition passFrame (w w' : World) : Prop :=
  ReconciliationsTotal (metrics w') = ReconciliationsTotal (metrics w)
  ∧ ReconciliationsFailedTotal (metrics w') = ReconciliationsFailedTotal (metrics w)
  ∧ ∃ evs, events w' = events w ++ evs.

(** An operation that returns from every world, within a frame. *)
Definition returnsWithin {A} (R : World → World → Prop) (m : Op A) : Prop :=
  ∀ w, ∃ a w', m w = Returned a w' ∧ R w w'.

(** The objects handed to create-or-update in a trace, in order. *)
Definition written (tr : list Call) : list Object :=
  omap (fun c => match c with
                 | CallCreateOrUpdate obj _ => Some obj
                 | _ => None
                 end) tr.

(** What is written for a desired object: the object itself when it is
    cluster-scoped; otherwise the object moved to the parent's namespace
    and carrying the owner reference, or nothing when the owner
    reference cannot be set. *)
Definition prepared (owner : Owner) (ns : string) (obj : Object) : option Object :=
  if IsNamespacedResource obj then
    match SetControllerReference owner (SetNamespace ns obj) with
    | inl _ => None
    | inr obj' => Some obj'
    end
  else Some obj.

(** The event the store controller records for a failed create-or-update. *)
Definition syncFailedEvent (store : ThanosStore) (c : Call) : option Event :=
  match c with
  | CallCreateOrUpdate obj (inl err) =>
      Some (mkEvent (keyOf (storeMeta store)) EventTypeWarning "SyncFailed"
              ("Failed to sync resource " +:+ Name (objMeta obj) +:+ ": " +:+ Error err))
  | _ => None
  end.

(** The log line the router writes for a query whose selector cannot be
    built. *)
Definition selectorError (query : ThanosQuery) : option LogEntry :=
  match BuildLabelSelectorFrom (qStoreLabelSelector (querySpec query))
          requiredStoreServiceLabels with
  | inl err => Some (LogError err "failed to build label selector from store label selector")
  | inr _ => None
  end.

(** A warning event that reports a failed pass. *)
Definition reportsFailure (ev : Event) : Prop :=
  evType ev = EventTypeWarning
  ∧ (evReason ev = "GetFailed" ∨ evReason ev = "SyncFailed").

End MoreVocabulary.

Ltac run_op :=
  unfold bind, ret, panic, log, RecorderEvent, updMetrics, call,
    clientGetThanosQuery, clientGetThanosStore, clientListServices,
    clientListThanosQueries; simpl.

(** * Properties *)

(** ** Counters and [int32] *)

Lemma counterValue_counterAdd (lbls : list string) (v : Z) (cv : CounterVec) :
  counterValue (counterAdd lbls v cv) lbls = counterValue cv lbls + v.
Proof. unfold counterValue, counterAdd. by rewrite lookup_insert_eq. Qed.

Lemma counterValue_counterAdd_ne (l1 l2 : list string) (v : Z) (cv : CounterVec) :
  l1 ≠ l2 → counterValue (counterAdd l1 v cv) l2 = counterValue cv l2.
Proof. intros Hne. unfold counterValue, counterAdd. by rewrite lookup_insert_ne. Qed.

Lemma int32_wrap_id (z : Z) : - 2147483648 <= z <= int32_max → int32_wrap z = z.
Proof.
  unfold int32_wrap, int32_max. intros Hz.
  rewrite Z.mod_small; lia.
Qed.

(** ** Endpoint classification *)

Section Classification.
Context `{Client}.

Lemma HasLabel_true (lbls : Labels) (key : string) :
  HasLabel lbls key = true ↔ is_Some (lbls !! key).
Proof. unfold HasLabel. apply bool_decide_eq_true. Qed.

Lemma HasLabel_false (lbls : Labels) (key : string) :
  HasLabel lbls key = false ↔ lbls !! key = None.
Proof.
  unfold HasLabel. rewrite bool_decide_eq_false, eq_None_not_Some. done.
Qed.

(** C5.  [getServiceTypeFromLabel] is defined on every label set and
    returns one of the four endpoint types, chosen by the fixed priority
    Strict > GroupStrict > Group > Regular: the first marker label that
    is present decides, and Regular is the answer when none is.  In
    particular a service carrying both the Strict and the Group marker
    is classified Strict. *)
Theorem getServiceTypeFromLabel_priority (objMeta : ObjectMeta) :
  let lbls := ObjLabels objMeta in
  let etype := Query.getServiceTypeFromLabel objMeta in
  etype ∈ [StrictLabel; GroupStrictLabel; GroupLabel; RegularLabel]
  ∧ (is_Some (lbls !! StrictLabel) → etype = StrictLabel)
  ∧ (lbls !! StrictLabel = None → is_Some (lbls !! GroupStrictLabel) →
     etype = GroupStrictLabel)
  ∧ (lbls !! StrictLabel = None → lbls !! GroupStrictLabel = None →
     is_Some (lbls !! GroupLabel) → etype = GroupLabel)
  ∧ (lbls !! StrictLabel = None → lbls !! GroupStrictLabel = None →
     lbls !! GroupLabel = None → etype = RegularLabel)
  ∧ (is_Some (lbls !! StrictLabel) → is_Some (lbls !! GroupLabel) →
     etype = StrictLabel).
Proof.
  intros lbls etype. subst etype. unfold Query.getServiceTypeFromLabel. fold lbls.
  destruct (HasLabel lbls StrictLabel) eqn:Hs;
    [apply HasLabel_true in Hs | apply HasLabel_false in Hs].
  - repeat split; try done; try (intros Hn; rewrite Hn in Hs; by destruct Hs).
    set_solver.
  - destruct (HasLabel lbls GroupStrictLabel) eqn:Hgs;
      [apply HasLabel_true in Hgs | apply HasLabel_false in Hgs].
    + repeat split; try done;
        try (intros Hx; rewrite Hs in Hx; by destruct Hx);
        try (intros _ Hn; rewrite Hn in Hgs; by destruct Hgs).
      set_solver.
    + destruct (HasLabel lbls GroupLabel) eqn:Hg;
        [apply HasLabel_true in Hg | apply HasLabel_false in Hg].
      * repeat split; try done;
          try (intros Hx; rewrite Hs in Hx; by destruct Hx);
          try (intros _ Hx; rewrite Hgs in Hx; by destruct Hx);
          try (intros _ _ Hn; rewrite Hn in Hg; by destruct Hg).
        set_solver.
      * repeat split; try done;
          try (intros Hx; rewrite Hs in Hx; by destruct Hx);
          try (intros _ Hx; rewrite Hgs in Hx; by destruct Hx);
          try (intros _ _ Hx; rewrite Hg in Hx; by destruct Hx).
        set_solver.
Qed.

End Classification.

(** ** Events of a sync pass *)

Section Events.
Context `{Client}.

Lemma recordsNoPause_ret {A} (a : A) : recordsNoPause (ret a).
Proof. intros w. exists []. by rewrite app_nil_r. Qed.

Lemma recordsNoPause_panic {A} (msg : string) : recordsNoPause (@panic _ _ A msg).
Proof. intros w. exists []. by rewrite app_nil_r. Qed.

Lemma recordsNoPause_log (l : LogEntry) : recordsNoPause (log l).
Proof. intros w. exists []. by rewrite app_nil_r. Qed.

Lemma recordsNoPause_updMetrics (f : Metrics → Metrics) : recordsNoPause (updMetrics f).
Proof. intros w. exists []. by rewrite app_nil_r. Qed.

Lemma recordsNoPause_event (m : ObjectMeta) (t : EventType) (reason msg : string) :
  reason ≠ "Paused" → recordsNoPause (RecorderEvent m t reason msg).
Proof. intros Hr w. eexists. split; [reflexivity|]. by constructor. Qed.

Lemma recordsNoPause_listServices (sel : Selector) (ns : string) :
  recordsNoPause (clientListServices sel ns).
Proof. intros w. exists []. by rewrite app_nil_r. Qed.

Lemma recordsNoPause_setControllerReference (owner : Owner) (obj : Object) :
  recordsNoPause (ctrlSetControllerReference owner obj).
Proof. intros w. exists []. by rewrite app_nil_r. Qed.

Lemma recordsNoPause_createOrUpdate (obj : Object) (f : MutateFn) :
  recordsNoPause (ctrlCreateOrUpdate obj f).
Proof.
  intros w. exists []. unfold ctrlCreateOrUpdate.
  destruct (CreateOrUpdate _ _ _). by rewrite app_nil_r.
Qed.

Lemma recordsNoPause_bind {A B} (m : Op A) (k : A → Op B) :
  recordsNoPause m → (∀ a, recordsNoPause (k a)) → recordsNoPause (bind m k).
Proof.
  intros Hm Hk w. unfold bind. destruct (Hm w) as (evs1 & He1 & Hf1).
  destruct (m w) as [a w1|msg w1]; simpl in *.
  - destruct (Hk a w1) as (evs2 & He2 & Hf2).
    exists (evs1 ++ evs2). rewrite He2, He1, app_assoc. split; [done|].
    by apply Forall_app.
  - by exists evs1.
Qed.

End Events.

Ltac calm :=
  repeat first
    [ assumption
    | apply recordsNoPause_ret
    | apply recordsNoPause_panic
    | apply recordsNoPause_log
    | apply recordsNoPause_updMetrics
    | apply recordsNoPause_listServices
    | apply recordsNoPause_setControllerReference
    | apply recordsNoPause_createOrUpdate
    | apply recordsNoPause_event; discriminate
    | apply recordsNoPause_bind; [|intros]
    | match goal with
      | H : ∀ x, recordsNoPause _ |- _ => apply H
      | H : ∀ x y, recordsNoPause _ |- _ => apply H
      | H : ∀ x y z, recordsNoPause _ |- _ => apply H
      | |- recordsNoPause (match ?x with _ => _ end) => destruct x
      | |- recordsNoPause (if ?b then _ else _) => destruct b
      end ].

Section SyncEvents.
Context `{Client}.

Lemma Query_endpoints_loop_recordsNoPause (query : ThanosQuery) (items : list Service) :
  ∀ i endpoints,
    recordsNoPause (Query.getStoreAPIServiceEndpoints_loop query i items endpoints).
Proof. induction items as [|svc rest IH]; intros i endpoints; simpl; calm. Qed.

Lemma Query_syncObjects_loop_recordsNoPause (query : ThanosQuery) (objs : list Object) :
  ∀ errCount, recordsNoPause (Query.syncObjects_loop query objs errCount).
Proof.
  induction objs as [|obj rest IH]; intros errCount; simpl; [calm|].
  unfold Query.syncObject, Query.createOrUpdateObject. calm.
Qed.

Lemma Query_syncResources_recordsNoPause (query : ThanosQuery) :
  recordsNoPause (Query.syncResources query).
Proof.
  pose proof (Query_endpoints_loop_recordsNoPause query).
  pose proof (Query_syncObjects_loop_recordsNoPause query).
  unfold Query.syncResources, Query.buildQuerier, Query.getStoreAPIServiceEndpoints,
    Query.buildQueryFrontend, Query.syncObjects.
  calm.
Qed.

Lemma Store_syncObjects_loop_recordsNoPause (store : ThanosStore) (objs : list Object) :
  ∀ errCount, recordsNoPause (Store.syncObjects_loop store objs errCount).
Proof.
  induction objs as [|obj rest IH]; intros errCount; simpl; [calm|].
  unfold Store.syncObject, Store.createOrUpdateObject. calm.
Qed.

Lemma Store_syncResources_recordsNoPause (store : ThanosStore) :
  recordsNoPause (Store.syncResources store).
Proof.
  pose proof (Store_syncObjects_loop_recordsNoPause store).
  unfold Store.syncResources, Store.buildStore, Store.MustParse, Store.syncObjects.
  calm.
Qed.

End SyncEvents.

(** ** Fetching the resource and the pause flag *)

Section Fetch.
Context `{Client}.

Lemma Query_Reconcile_fetch_failed (req : Request) (w : World) (e : error) :
  GetThanosQuery (cluster w) (reqNamespacedName req) = inl e →
  ∃ w', Query.Reconcile req w
        = Returned (emptyResult, if IsNotFound e then None else Some e) w'
    ∧ cluster w' = cluster w
    ∧ calls w' = calls w ++ [CallGet (reqNamespacedName req)]
    ∧ events w' = events w ++
        (if IsNotFound e then []
         else [mkEvent (keyOf zeroObjectMeta) EventTypeWarning "GetFailed"
                 "Failed to get ThanosQuery resource"])
    ∧ counterValue (ClientErrorsTotal (metrics w')) [QueryName]
      = counterValue (ClientErrorsTotal (metrics w)) [QueryName] + 1
    ∧ counterValue (ReconciliationsFailedTotal (metrics w')) [QueryName]
      = counterValue (ReconciliationsFailedTotal (metrics w)) [QueryName]
        + (if IsNotFound e then 0 else 1).
Proof.
  intros Hget. unfold Query.Reconcile. run_op. rewrite Hget.
  destruct (IsNotFound e); simpl; eexists; (split; [reflexivity|]); simpl;
    rewrite ?counterValue_counterAdd, ?app_nil_r; repeat split; lia.
Qed.

Lemma Store_Reconcile_fetch_failed (req : Request) (w : World) (e : error) :
  GetThanosStore (cluster w) (reqNamespacedName req) = inl e →
  ∃ w', Store.Reconcile req w
        = Returned (emptyResult, if IsNotFound e then None else Some e) w'
    ∧ cluster w' = cluster w
    ∧ calls w' = calls w ++ [CallGet (reqNamespacedName req)]
    ∧ events w' = events w ++
        (if IsNotFound e then []
         else [mkEvent (keyOf zeroObjectMeta) EventTypeWarning "GetFailed"
                 "Failed to get ThanosStore resource"])
    ∧ counterValue (ClientErrorsTotal (metrics w')) [StoreName]
      = counterValue (ClientErrorsTotal (metrics w)) [StoreName] + 1
    ∧ counterValue (ReconciliationsFailedTotal (metrics w')) [StoreName]
      = counterValue (ReconciliationsFailedTotal (metrics w)) [StoreName]
        + (if IsNotFound e then 0 else 1).
Proof.
  intros Hget. unfold Store.Reconcile. run_op. rewrite Hget.
  destruct (IsNotFound e); simpl; eexists; (split; [reflexivity|]); simpl;
    rewrite ?counterValue_counterAdd, ?app_nil_r; repeat split; lia.
Qed.

(** C3, as amended.  When the fetch fails with not-found, [Reconcile]
    (of either controller) returns the empty result and no error, records
    no event and makes no further call; the client-error counter of the
    controller goes up by one, exactly as it does for every other fetch
    error, while the failed-reconciliations counter stays as it was. *)
Theorem Reconcile_not_found (req : Request) (w : World) :
  (∀ e, GetThanosQuery (cluster w) (reqNamespacedName req) = inl e →
        IsNotFound e = true →
     ∃ w', Query.Reconcile req w = Returned (emptyResult, None) w'
       ∧ Requeue emptyResult = false ∧ RequeueAfter emptyResult = 0
       ∧ events w' = events w
       ∧ cluster w' = cluster w
       ∧ calls w' = calls w ++ [CallGet (reqNamespacedName req)]
       ∧ counterValue (ClientErrorsTotal (metrics w')) [QueryName]
         = counterValue (ClientErrorsTotal (metrics w)) [QueryName] + 1
       ∧ counterValue (ReconciliationsFailedTotal (metrics w')) [QueryName]
         = counterValue (ReconciliationsFailedTotal (metrics w)) [QueryName])
  ∧ (∀ e, GetThanosStore (cluster w) (reqNamespacedName req) = inl e →
          IsNotFound e = true →
     ∃ w', Store.Reconcile req w = Returned (emptyResult, None) w'
       ∧ Requeue emptyResult = false ∧ RequeueAfter emptyResult = 0
       ∧ events w' = events w
       ∧ cluster w' = cluster w
       ∧ calls w' = calls w ++ [CallGet (reqNamespacedName req)]
       ∧ counterValue (ClientErrorsTotal (metrics w')) [StoreName]
         = counterValue (ClientErrorsTotal (metrics w)) [StoreName] + 1
       ∧ counterValue (ReconciliationsFailedTotal (metrics w')) [StoreName]
         = counterValue (ReconciliationsFailedTotal (metrics w)) [StoreName])
  ∧ (∀ e, GetThanosQuery (cluster w) (reqNamespacedName req) = inl e →
          IsNotFound e = false →
     ∃ w', Query.Reconcile req w = Returned (emptyResult, Some e) w'
       ∧ counterValue (ClientErrorsTotal (metrics w')) [QueryName]
         = counterValue (ClientErrorsTotal (metrics w)) [QueryName] + 1)
  ∧ (∀ e, GetThanosStore (cluster w) (reqNamespacedName req) = inl e →
          IsNotFound e = false →
     ∃ w', Store.Reconcile req w = Returned (emptyResult, Some e) w'
       ∧ counterValue (ClientErrorsTotal (metrics w')) [StoreName]
         = counterValue (ClientErrorsTotal (metrics w)) [StoreName] + 1).
Proof.
  repeat split.
  - intros e Hget Hnf.
    destruct (Query_Reconcile_fetch_failed req w e Hget)
      as (w' & Hr & Hc & Hcalls & Hev & Hce & Hrf).
    rewrite Hnf in *. exists w'. rewrite app_nil_r in Hev.
    repeat split; try done. lia.
  - intros e Hget Hnf.
    destruct (Store_Reconcile_fetch_failed req w e Hget)
      as (w' & Hr & Hc & Hcalls & Hev & Hce & Hrf).
    rewrite Hnf in *. exists w'. rewrite app_nil_r in Hev.
    repeat split; try done. lia.
  - intros e Hget Hnf.
    destruct (Query_Reconcile_fetch_failed req w e Hget)
      as (w' & Hr & Hc & Hcalls & Hev & Hce & Hrf).
    rewrite Hnf in *. by exists w'.
  - intros e Hget Hnf.
    destruct (Store_Reconcile_fetch_failed req w e Hget)
      as (w' & Hr & Hc & Hcalls & Hev & Hce & Hrf).
    rewrite Hnf in *. by exists w'.
Qed.

(** C6, as amended.  When the fetched resource has its pause flag set
    to true, [Reconcile] (of either controller) returns the empty result
    and no error, and the world it leaves is the world after the fetch
    with exactly one ["Paused"] event of type Normal and one
    informational log line added: the cluster is untouched, no
    owner-reference or create-or-update call is made.  The
    reconciliations-total counter, bumped at the start of every pass,
    is the only counter that moves. *)
Theorem Reconcile_paused (req : Request) (w : World) :
  (∀ query, GetThanosQuery (cluster w) (reqNamespacedName req) = inr query →
            qPaused (querySpec query) = Some true →
     Query.Reconcile req w =
       Returned (emptyResult, None)
         {| cluster := cluster w;
            calls := calls w ++ [CallGet (reqNamespacedName req)];
            events := events w ++
              [mkEvent (keyOf (queryMeta query)) EventTypeNormal "Paused"
                 "Reconciliation is paused for ThanosQuery resource"];
            logs := logs w ++
              [LogInfo 0 "reconciliation is paused for ThanosQuery resource"];
            metrics := addReconciliationsTotal QueryName 1 (metrics w) |})
  ∧ (∀ store, GetThanosStore (cluster w) (reqNamespacedName req) = inr store →
              sPaused (storeSpec store) = Some true →
     Store.Reconcile req w =
       Returned (emptyResult, None)
         {| cluster := cluster w;
            calls := calls w ++ [CallGet (reqNamespacedName req)];
            events := events w ++
              [mkEvent (keyOf (storeMeta store)) EventTypeNormal "Paused"
                 "Reconciliation is paused for ThanosStore resource"];
            logs := logs w ++
              [LogInfo 0 "reconciliation is paused for ThanosStore"];
            metrics := addReconciliationsTotal StoreName 1 (metrics w) |}).
Proof.
  split.
  - intros query Hget Hp. unfold Query.Reconcile. run_op.
    rewrite Hget, Hp. reflexivity.
  - intros store Hget Hp. unfold Store.Reconcile. run_op.
    rewrite Hget, Hp. reflexivity.
Qed.


End Fetch.

(** ** The sync protocol *)

Section Sync.
Context `{Client}.

Lemma failures_app (t1 t2 : list Call) : failures (t1 ++ t2) = (failures t1 + failures t2)%nat.
Proof. unfold failures. by rewrite List.filter_app, length_app. Qed.

Lemma applied_app (t1 t2 : list Call) : applied (t1 ++ t2) = (applied t1 + applied t2)%nat.
Proof. unfold applied. by rewrite List.filter_app, length_app. Qed.

Lemma replay_app (c : Cluster) (t1 t2 : list Call) :
  replay c (t1 ++ t2) = replay (replay c t1) t2.
Proof. unfold replay. by rewrite fold_left_app. Qed.

Ltac step_cases :=
  intros errCount w;
  repeat match goal with
  | |- context [IsNamespacedResource ?o] => destruct (IsNamespacedResource o)
  end;
  unfold ctrlSetControllerReference, ctrlCreateOrUpdate; run_op;
  repeat match goal with
  | |- context [SetControllerReference ?o ?x] =>
      destruct (SetControllerReference o x) as [?e|?o'] eqn:?Hscr; simpl
  | |- context [CreateOrUpdate ?c ?o ?f] =>
      destruct (CreateOrUpdate c o f) as [[?e|?op] ?c'] eqn:?Hcu; simpl
  end.

Ltac step_done b :=
  exists b; eexists; eexists; split; [reflexivity|]; simpl;
  split; [rewrite <- ?app_assoc; reflexivity|];
  unfold failures, applied, replay, DeepCopyObject in *; simpl;
  repeat match goal with
  | Hcu : CreateOrUpdate _ _ _ = _ |- _ => rewrite Hcu; clear Hcu
  end;
  repeat split; done.

Lemma Query_syncObject_iteration (query : ThanosQuery) (obj : Object) :
  iteration (Query.syncObject query obj) true.
Proof.
  unfold iteration, Query.syncObject, Query.createOrUpdateObject.
  step_cases; first [step_done true | step_done false].
Qed.

Lemma Store_syncObject_iteration (store : ThanosStore) (obj : Object) :
  iteration (Store.syncObject store obj) false.
Proof.
  unfold iteration, Store.syncObject, Store.createOrUpdateObject.
  step_cases; first [step_done true | step_done false].
Qed.

(** The loop as a whole: every object is handled once, and as long as
    the [int32] counter does not overflow it ends at the number of
    failures. *)
Lemma sync_loop (step : Object → Z → Op Z) (loop : list Object → Z → Op Z)
    (keepsEvents : bool) :
  (∀ e, loop [] e = ret e) →
  (∀ o r e, loop (o :: r) e = bind (step o e) (fun e' => loop r e')) →
  (∀ o, iteration (step o) keepsEvents) →
  ∀ objs errCount w, ∃ errCount' tr w',
    loop objs errCount w = Returned errCount' w'
    ∧ calls w' = calls w ++ tr
    ∧ (failures tr + applied tr)%nat = length objs
    ∧ forallb isSyncCall tr = true
    ∧ cluster w' = replay (cluster w) tr
    ∧ metrics w' = metrics w
    ∧ (keepsEvents = true → events w' = events w)
    ∧ (- 2147483648 <= errCount →
       errCount + Z.of_nat (failures tr) <= int32_max →
       errCount' = errCount + Z.of_nat (failures tr)).
Proof.
  intros Hnil Hcons Hstep objs.
  induction objs as [|obj rest IH]; intros errCount w.
  - rewrite Hnil. exists errCount, [], w. unfold ret.
    rewrite app_nil_r. repeat split; try done. intros. unfold failures. simpl. lia.
  - rewrite Hcons. unfold bind.
    destruct (Hstep obj errCount w)
      as (failed & tr1 & w1 & Hrun & Hc1 & Hf1 & Ha1 & Hs1 & Hcl1 & Hm1 & He1).
    rewrite Hrun.
    destruct (IH (if failed then int32_wrap (errCount + 1) else errCount) w1)
      as (e2 & tr2 & w2 & Hrun2 & Hc2 & Hfa2 & Hs2 & Hcl2 & Hm2 & He2 & Hcount).
    exists e2, (tr1 ++ tr2), w2. rewrite Hrun2.
    rewrite failures_app, applied_app, replay_app, forallb_app, Hs1, Hs2.
    rewrite Hc2, Hc1, Hcl2, Hcl1, Hm2, Hm1, app_assoc, Hf1, Ha1.
    repeat split; try done.
    + destruct failed; simpl; lia.
    + intros Hk. rewrite He2, He1; done.
    + intros Hlo Hhi. destruct failed.
      * rewrite int32_wrap_id in Hcount by (unfold int32_max in *; lia).
        rewrite Hcount; unfold int32_max in *; lia.
      * rewrite Hcount; simpl in *; lia.
Qed.

(** C2.  A sync pass over [objs] (fewer than 2^31 of them, the range of
    the [int32] failure counter) always runs to the end of the list:
    every object is handled once and ends either as one failure (owner
    reference or create-or-update) or as one applied create-or-update.
    With [M] failures among the [N] objects the pass returns the
    aggregate error whose text carries [M] (and no error when [M] is
    zero), the client-error counter of the controller has grown by
    exactly [M], and the cluster is the one obtained by making the
    create-or-update calls of the pass in order: the [N - M] applied ones
    are never undone.  This holds for both controllers. *)
Theorem syncObjects_partial_failure (objs : list Object) (w : World)
    (Hn : Z.of_nat (length objs) <= int32_max) :
  (∀ query, ∃ tr w',
     Query.syncObjects query objs w
     = Returned
         (if (failures tr =? 0)%nat then None
          else Some (ErrorString
                       ("failed to create or update " +:+ fmt_d (Z.of_nat (failures tr))
                        +:+ " resources for the querier and query frontend"))) w'
     ∧ calls w' = calls w ++ tr
     ∧ forallb isSyncCall tr = true
     ∧ (failures tr + applied tr)%nat = length objs
     ∧ counterValue (ClientErrorsTotal (metrics w')) [QueryName]
       = counterValue (ClientErrorsTotal (metrics w)) [QueryName] + Z.of_nat (failures tr)
     ∧ cluster w' = replay (cluster w) tr)
  ∧ (∀ store, ∃ tr w',
     Store.syncObjects store objs w
     = Returned
         (if (failures tr =? 0)%nat then None
          else Some (ErrorString
                       ("failed to create or update " +:+ fmt_d (Z.of_nat (failures tr))
                        +:+ " resources for the store"))) w'
     ∧ calls w' = calls w ++ tr
     ∧ forallb isSyncCall tr = true
     ∧ (failures tr + applied tr)%nat = length objs
     ∧ counterValue (ClientErrorsTotal (metrics w')) [StoreName]
       = counterValue (ClientErrorsTotal (metrics w)) [StoreName] + Z.of_nat (failures tr)
     ∧ cluster w' = replay (cluster w) tr).
Proof.
  split.
  - intros query.
    destruct (sync_loop (Query.syncObject query) (Query.syncObjects_loop query) true
                ltac:(reflexivity) ltac:(reflexivity)
                (Query_syncObject_iteration query) objs 0 w)
      as (e' & tr & w' & Hrun & Hc & Hfa & Hs & Hcl & Hm & _ & Hcount).
    assert (He : e' = Z.of_nat (failures tr)) by (rewrite Hcount; unfold int32_max in *; lia).
    subst e'. unfold Query.syncObjects, bind. rewrite Hrun.
    destruct (failures tr) as [|m] eqn:Hf.
    + exists tr, w'. simpl. unfold ret. rewrite Hm, Hf. repeat split; try done. lia.
    + replace (Z.of_nat (S m) >? 0) with true by (symmetry; apply Z.gtb_lt; lia).
      exists tr. run_op. eexists. split; [by rewrite Hf|]. simpl.
      rewrite counterValue_counterAdd, Hm, Hf. repeat split; done.
  - intros store.
    destruct (sync_loop (Store.syncObject store) (Store.syncObjects_loop store) false
                ltac:(reflexivity) ltac:(reflexivity)
                (Store_syncObject_iteration store) objs 0 w)
      as (e' & tr & w' & Hrun & Hc & Hfa & Hs & Hcl & Hm & _ & Hcount).
    assert (He : e' = Z.of_nat (failures tr)) by (rewrite Hcount; unfold int32_max in *; lia).
    subst e'. unfold Store.syncObjects, bind. rewrite Hrun.
    destruct (failures tr) as [|m] eqn:Hf.
    + exists tr, w'. simpl. unfold ret. rewrite Hm, Hf. repeat split; try done. lia.
    + replace (Z.of_nat (S m) >? 0) with true by (symmetry; apply Z.gtb_lt; lia).
      exists tr. run_op. eexists. split; [by rewrite Hf|]. simpl.
      rewrite counterValue_counterAdd, Hm, Hf. repeat split; done.
Qed.

End Sync.

(** ** Endpoint discovery *)

Section Discovery.
Context `{Client}.

(** The loop over the listed services never changes the length of the
    slice it fills, writes only at the index of a service that has a
    gRPC port, and leaves every other slot -- the slot of a skipped
    service included -- as it found it.  It counts one configured
    endpoint per service with a gRPC port and none for a skipped one. *)
Lemma getStoreAPIServiceEndpoints_loop_skips (query : ThanosQuery) (items : list Service) :
  ∀ (i : nat) (endpoints : list Endpoint) (w : World), ∃ endpoints' w',
    Query.getStoreAPIServiceEndpoints_loop query i items endpoints w
    = Returned endpoints' w'
    ∧ length endpoints' = length endpoints
    ∧ cluster w' = cluster w ∧ calls w' = calls w ∧ events w' = events w
    ∧ (∀ j, (j < i)%nat → endpoints' !! j = endpoints !! j)
    ∧ (∀ k svc, items !! k = Some svc → hasGrpcPort svc = false →
         endpoints' !! (i + k)%nat = endpoints !! (i + k)%nat)
    ∧ metrics w' = countEndpoints query items (metrics w).
Proof.
  induction items as [|svc rest IH]; intros i endpoints w.
  - exists endpoints, w. simpl. unfold ret. repeat split; done.
  - simpl. unfold countEndpoints. simpl. unfold hasGrpcPort at 2.
    destruct (IsGrpcServiceWithLabels svc requiredStoreServiceLabels) as [port ok] eqn:Hgrpc.
    destruct ok; simpl.
    + run_op.
      match goal with
      | |- context [Query.getStoreAPIServiceEndpoints_loop query (S i) rest ?eps ?w1] =>
          destruct (IH (S i) eps w1)
            as (eps' & w' & Hrun & Hlen & Hcl & Hcalls & Hev & Hbefore & Hskip & Hmet)
      end.
      exists eps', w'. rewrite Hrun, Hlen, length_insert.
      repeat split; try done.
      * intros j Hj. rewrite Hbefore by lia. apply list_lookup_insert_ne. lia.
      * intros [|k] svc' Hk Hno; simpl in Hk.
        -- injection Hk as <-. unfold hasGrpcPort in Hno. rewrite Hgrpc in Hno.
           discriminate.
        -- replace (i + S k)%nat with (S i + k)%nat by lia.
           rewrite (Hskip k svc' Hk Hno). apply list_lookup_insert_ne. lia.
    + run_op.
      match goal with
      | |- context [Query.getStoreAPIServiceEndpoints_loop query (S i) rest ?eps ?w1] =>
          destruct (IH (S i) eps w1)
            as (eps' & w' & Hrun & Hlen & Hcl & Hcalls & Hev & Hbefore & Hskip & Hmet)
      end.
      exists eps', w'. rewrite Hrun.
      repeat split; try done.
      * intros j Hj. apply Hbefore. lia.
      * intros [|k] svc' Hk Hno; simpl in Hk.
        -- rewrite Nat.add_0_r. apply Hbefore. lia.
        -- replace (i + S k)%nat with (S i + k)%nat by lia.
           apply (Hskip k svc' Hk Hno).
Qed.

(** C1, the behaviour of the code.  [getStoreAPIServiceEndpoints]
    returns a slice as long as the list of matching services.  For a
    listed service without a gRPC port the slot at its index holds the
    zero [Endpoint]: the service is not dropped from the result.  The
    endpoint counters, on the other hand, are incremented once per
    service with a gRPC port and not at all for a skipped service. *)
Theorem getStoreAPIServiceEndpoints_placeholder (query : ThanosQuery) (w : World)
    (labelSelector : Selector) (items : list Service) (i : nat) (svc : Service) :
  BuildLabelSelectorFrom (qStoreLabelSelector (querySpec query))
    requiredStoreServiceLabels = inr labelSelector →
  ListServices (cluster w) labelSelector (Namespace (queryMeta query)) = inr items →
  items !! i = Some svc →
  hasGrpcPort svc = false →
  ∃ endpoints w',
    Query.getStoreAPIServiceEndpoints query w = Returned (endpoints, None) w'
    ∧ length endpoints = length items
    ∧ endpoints !! i = Some zeroEndpoint
    ∧ metrics w' = countEndpoints query items (metrics w).
Proof.
  intros Hsel Hlist Hi Hno.
  unfold Query.getStoreAPIServiceEndpoints. rewrite Hsel. run_op. rewrite Hlist.
  destruct items as [|s0 rest] eqn:Hitems; [by rewrite lookup_nil in Hi|].
  rewrite <- Hitems in *. replace (length items =? 0)%nat with false
    by (symmetry; apply Nat.eqb_neq; subst items; simpl; lia).
  match goal with
  | |- context [Query.getStoreAPIServiceEndpoints_loop query 0 items ?eps ?w1] =>
      destruct (getStoreAPIServiceEndpoints_loop_skips query items 0 eps w1)
        as (eps' & w' & Hrun & Hlen & Hcl & Hcalls & Hev & Hbefore & Hskip & Hmet)
  end.
  rewrite Hrun. exists eps', w'. rewrite length_replicate in Hlen.
  repeat split; try done.
  rewrite <- (Nat.add_0_l i), (Hskip i svc Hi Hno). simpl.
  apply lookup_replicate_2. by apply lookup_lt_Some in Hi.
Qed.

End Discovery.

(** ** The desired state of a store *)

Section StoreBuild.
Context `{Client}.

(** C4, the behaviour of the code.  When the storage size of a fetched,
    unpaused store does not parse, [buildStore] does not return an
    error: [resource.MustParse] panics, and the panic leaves
    [syncResources] and [Reconcile] without a returned result. *)
Theorem Reconcile_malformed_storage_size (req : Request) (w : World)
    (store : ThanosStore) (e : error) :
  GetThanosStore (cluster w) (reqNamespacedName req) = inr store →
  sPaused (storeSpec store) ≠ Some true →
  ParseQuantity (sStorageSize (storeSpec store)) = inl e →
  Store.Reconcile req w
  = Panicked ("cannot parse '" +:+ sStorageSize (storeSpec store) +:+ "': " +:+ Error e)
      (fetched StoreName (reqNamespacedName req) w).
Proof.
  intros Hget Hp Hparse. unfold Store.Reconcile, fetched. run_op. rewrite Hget.
  assert (Hsync : ∀ w1, Store.syncResources store w1
            = Panicked ("cannot parse '" +:+ sStorageSize (storeSpec store) +:+ "': "
                        +:+ Error e) w1).
  { intros w1. unfold Store.syncResources, Store.buildStore, Store.MustParse.
    rewrite Hparse. reflexivity. }
  destruct (sPaused (storeSpec store)) as [[|]|]; [congruence|..];
    by rewrite Hsync.
Qed.

End StoreBuild.

(** ** Watching services *)

Section Watch.
Context `{Client}.

Lemma enqueueForService_loop_filter (obj : Service) (items : list ThanosQuery) :
  ∀ (requests : list Request) (w : World), ∃ w',
    Query.enqueueForService_loop obj items requests w
    = Returned (requests ++ map requestFor (List.filter (selects obj) items)) w'
    ∧ cluster w' = cluster w ∧ calls w' = calls w
    ∧ events w' = events w ∧ metrics w' = metrics w.
Proof.
  induction items as [|query rest IH]; intros requests w.
  - exists w. simpl. unfold ret. by rewrite app_nil_r.
  - simpl. unfold selects at 1.
    destruct (BuildLabelSelectorFrom _ _) as [err|selector]; simpl.
    + run_op.
      match goal with
      | |- context [Query.enqueueForService_loop obj rest requests ?w1] =>
          destruct (IH requests w1) as (w' & Hrun & Hrest)
      end.
      exists w'. by rewrite Hrun.
    + destruct (Matches selector (ObjLabels (svcMeta obj))); simpl.
      * destruct (IH (requests ++ [requestFor query]) w) as (w' & Hrun & Hrest).
        exists w'. unfold requestFor at 1, keyOf in Hrun.
        rewrite Hrun, <- app_assoc. done.
      * apply IH.
Qed.

(** C8.  A service that is not a StoreAPI service with a gRPC port is
    answered with the empty list at once, without any call.  Otherwise,
    when the queries of the service's namespace are listed, the router
    returns exactly one request per listed query that selects the
    service, in listing order; a query whose selector cannot be built
    selects nothing and is skipped without ending the call.  The
    service-watch counter grows by the number of requests. *)
Theorem enqueueForService_routes (obj : Service) (w : World) :
  (Query.isQueueableStoreService obj = false →
   Query.enqueueForService obj w = Returned [] w)
  ∧ (Query.isQueueableStoreService obj = true →
     ∀ items, ListThanosQueries (cluster w) (Namespace (svcMeta obj)) = inr items →
     ∃ w', Query.enqueueForService obj w
           = Returned (map requestFor (List.filter (selects obj) items)) w'
       ∧ cluster w' = cluster w
       ∧ calls w' = calls w ++ [CallListThanosQueries (Namespace (svcMeta obj))]
       ∧ events w' = events w
       ∧ ServiceWatchesReconciliationsTotal (metrics w')
         = ServiceWatchesReconciliationsTotal (metrics w)
           + Z.of_nat (length (List.filter (selects obj) items)))
  ∧ (∀ query e,
       BuildLabelSelectorFrom (qStoreLabelSelector (querySpec query))
         requiredStoreServiceLabels = inl e →
       selects obj query = false).
Proof.
  split; [|split].
  - intros Hq. unfold Query.enqueueForService. by rewrite Hq.
  - intros Hq items Hlist. unfold Query.enqueueForService. rewrite Hq. run_op.
    rewrite Hlist.
    match goal with
    | |- context [Query.enqueueForService_loop obj items [] ?w1] =>
        destruct (enqueueForService_loop_filter obj items [] w1)
          as (w' & Hrun & Hcl & Hcalls & Hev & Hm)
    end.
    rewrite Hrun. simpl. eexists. split; [reflexivity|]. simpl.
    rewrite Hm, length_map. repeat split; done.
  - intros query e Hsel. unfold selects. by rewrite Hsel.
Qed.

(** C9.  When listing the queries of the service's namespace fails, the
    router returns the empty list: the error is dropped, nothing is
    logged, recorded or counted, and no further call is made.  An event
    about services of that namespace therefore puts nothing on the
    queue. *)
Theorem enqueueForService_list_failed (obj : Service) (w : World) (e : error) :
  ListThanosQueries (cluster w) (Namespace (svcMeta obj)) = inl e →
  (∃ w', Query.enqueueForService obj w = Returned [] w'
     ∧ cluster w' = cluster w ∧ events w' = events w
     ∧ logs w' = logs w ∧ metrics w' = metrics w
     ∧ (calls w' = calls w
        ∨ calls w' = calls w ++ [CallListThanosQueries (Namespace (svcMeta obj))]))
  ∧ (∀ p ev,
       (∀ o, o ∈ eventObjects ev → Namespace (svcMeta o) = Namespace (svcMeta obj)) →
       ∃ w', Query.serviceWatch p ev w = Returned [] w'
         ∧ cluster w' = cluster w ∧ events w' = events w
         ∧ logs w' = logs w ∧ metrics w' = metrics w).
Proof.
  intros Hlist.
  assert (Hone : ∀ o w1, cluster w1 = cluster w →
            Namespace (svcMeta o) = Namespace (svcMeta obj) →
            ∃ w', Query.enqueueForService o w1 = Returned [] w'
              ∧ cluster w' = cluster w1 ∧ events w' = events w1
              ∧ logs w' = logs w1 ∧ metrics w' = metrics w1
              ∧ (calls w' = calls w1
                 ∨ calls w' = calls w1 ++ [CallListThanosQueries (Namespace (svcMeta o))])).
  { intros o w1 Hcl Hns. unfold Query.enqueueForService.
    destruct (Query.isQueueableStoreService o); simpl.
    - run_op. rewrite Hcl, Hns, Hlist. eexists. split; [reflexivity|]. simpl.
      repeat split; try done. by right.
    - exists w1. unfold ret. repeat split; try done. by left. }
  split.
  - by apply Hone.
  - intros p ev Hns. unfold Query.serviceWatch.
    destruct (Query.admits p ev); [|exists w; by unfold ret].
    unfold Query.EnqueueRequestsFromMapFunc, bind.
    destruct ev as [o|old new|o|o]; simpl in Hns.
    + destruct (Hone o w eq_refl (Hns o ltac:(set_solver)))
        as (w' & Hrun & Hcl & Hev & Hlog & Hm & _).
      rewrite Hrun. exists w'. by unfold ret.
    + destruct (Hone old w eq_refl (Hns old ltac:(set_solver)))
        as (w1 & Hrun1 & Hcl1 & Hev1 & Hlog1 & Hm1 & _).
      destruct (Hone new w1 Hcl1 (Hns new ltac:(set_solver)))
        as (w2 & Hrun2 & Hcl2 & Hev2 & Hlog2 & Hm2 & _).
      rewrite Hrun1, Hrun2. exists w2. unfold ret. simpl.
      rewrite Hcl2, Hev2, Hlog2, Hm2. done.
    + destruct (Hone o w eq_refl (Hns o ltac:(set_solver)))
        as (w' & Hrun & Hcl & Hev & Hlog & Hm & _).
      rewrite Hrun. exists w'. by unfold ret.
    + destruct (Hone o w eq_refl (Hns o ltac:(set_solver)))
        as (w' & Hrun & Hcl & Hev & Hlog & Hm & _).
      rewrite Hrun. exists w'. by unfold ret.
Qed.


End Watch.

(** * The controllers at work on the sample instance *)

Section Examples.
Import Sample.
#[local] Existing Instance platform.
#[local] Existing Instance server.
#[local] Existing Instance machinery.
#[local] Existing Instance manifests.
#[local] Existing Instance client.

(** Two matching services, the first without a gRPC port: the result has
    two entries and the first one is the zero [Endpoint]. *)
Example getStoreAPIServiceEndpoints_two_services :
  returned (Query.getStoreAPIServiceEndpoints q1 busyWorld)
  = Some ([ {| ServiceName := ""; Port := 0; epNamespace := ""; Type_ := "" |};
            {| ServiceName := "store-a"; Port := 10901; epNamespace := "ns-a";
               Type_ := "operator.thanos.io/endpoint-strict" |} ], None)
  ∧ map_to_list (EndpointsConfigured
                   (metrics (finalWorld (Query.getStoreAPIServiceEndpoints q1 busyWorld))))
    = [(["operator.thanos.io/endpoint-strict"; "q1"; "ns-a"], 1)].
Proof. split; vm_compute; reflexivity. Qed.

Lemma getStoreAPIServiceEndpoints_placeholder_witness :
  ∃ endpoints w',
    Query.getStoreAPIServiceEndpoints q1 busyWorld = Returned (endpoints, None) w'
    ∧ length endpoints = 2%nat
    ∧ endpoints !! 0%nat = Some zeroEndpoint.
Proof.
  destruct (getStoreAPIServiceEndpoints_placeholder q1 busyWorld
              requiredStoreServiceLabels [svcNoGrpc; svcStrict] 0 svcNoGrpc)
    as (endpoints & w' & Hrun & Hlen & Hzero & _);
    [vm_compute; reflexivity..|].
  exists endpoints, w'. split; [exact Hrun|]. split; [exact Hlen|exact Hzero].
Defined.

(** Five desired objects of which the server refuses one. *)
Example syncObjects_five_objects_one_refused :
  let out := Query.syncObjects q1 fiveObjects busyWorld in
  returned out
  = Some (Some (ErrorString
       "failed to create or update 1 resources for the querier and query frontend"))
  ∧ counterValue (ClientErrorsTotal (metrics (finalWorld out))) ["thanos-query"] = 1
  ∧ applied (calls (finalWorld out)) = 4%nat
  ∧ map objGVK (objects (cluster (finalWorld out)))
    = ["ServiceAccount"; "Deployment"; "ConfigMap"; "ClusterRole"].
Proof. repeat split; vm_compute; reflexivity. Qed.

Lemma syncObjects_partial_failure_witness :
  Z.of_nat (length fiveObjects) <= int32_max
  ∧ ∃ tr w',
      Query.syncObjects q1 fiveObjects busyWorld
      = Returned
          (if (failures tr =? 0)%nat then None
           else Some (ErrorString
                        ("failed to create or update " +:+ fmt_d (Z.of_nat (failures tr))
                         +:+ " resources for the querier and query frontend"))) w'
      ∧ (failures tr + applied tr)%nat = 5%nat.
Proof.
  assert (Hn : Z.of_nat (length fiveObjects) <= int32_max)
    by (vm_compute; intros Hgt; discriminate Hgt).
  split; [exact Hn|].
  destruct (proj1 (syncObjects_partial_failure fiveObjects busyWorld Hn) q1)
    as (tr & w' & Hrun & _ & _ & Hcount & _).
  exists tr, w'. split; [exact Hrun|exact Hcount].
Defined.

(** A not-found fetch is counted as a client error: the counter of the
    query controller is not what it was before the pass. *)
Lemma Reconcile_not_found_counts_client_error :
  ¬ (∀ e, GetThanosQuery (cluster emptyWorld) (reqNamespacedName requestQ1) = inl e →
          IsNotFound e = true →
       ∃ w', Query.Reconcile requestQ1 emptyWorld = Returned (emptyResult, None) w'
         ∧ events w' = events emptyWorld
         ∧ counterValue (ClientErrorsTotal (metrics w')) [QueryName]
           = counterValue (ClientErrorsTotal (metrics emptyWorld)) [QueryName]).
Proof.
  intros Hclaim.
  assert (Hget : GetThanosQuery (cluster emptyWorld) (reqNamespacedName requestQ1)
                 = inl (StatusError StatusReasonNotFound "not found"))
    by (vm_compute; reflexivity).
  destruct (Hclaim _ Hget eq_refl) as (w' & Hrun & _ & Hcount).
  vm_compute in Hrun. injection Hrun as <-. vm_compute in Hcount. discriminate Hcount.
Qed.

Lemma Reconcile_not_found_witness :
  ∃ w', Query.Reconcile requestQ1 emptyWorld = Returned (emptyResult, None) w'
    ∧ events w' = events emptyWorld
    ∧ counterValue (ClientErrorsTotal (metrics w')) [QueryName]
      = counterValue (ClientErrorsTotal (metrics emptyWorld)) [QueryName] + 1.
Proof.
  assert (Hget : GetThanosQuery (cluster emptyWorld) (reqNamespacedName requestQ1)
                 = inl (StatusError StatusReasonNotFound "not found"))
    by (vm_compute; reflexivity).
  destruct (proj1 (Reconcile_not_found requestQ1 emptyWorld) _ Hget eq_refl)
    as (w' & Hrun & _ & _ & Hev & _ & _ & Hcount & _).
  exists w'. split; [exact Hrun|]. split; [exact Hev|exact Hcount].
Defined.

Lemma Reconcile_malformed_storage_size_witness :
  ∃ msg w', Store.Reconcile requestS1 busyWorld = Panicked msg w'.
Proof.
  eexists _, _.
  apply (Reconcile_malformed_storage_size requestS1 busyWorld s1
           (ErrorString "quantities must match the regular expression"));
    [vm_compute; reflexivity | discriminate | vm_compute; reflexivity].
Defined.

Lemma getServiceTypeFromLabel_priority_witness :
  is_Some (ObjLabels (svcMeta svcStrict) !! StrictLabel)
  ∧ is_Some (ObjLabels (svcMeta svcStrict) !! GroupLabel)
  ∧ Query.getServiceTypeFromLabel (svcMeta svcStrict) = StrictLabel.
Proof.
  assert (Hs : is_Some (ObjLabels (svcMeta svcStrict) !! StrictLabel))
    by (exists "true"; vm_compute; reflexivity).
  assert (Hg : is_Some (ObjLabels (svcMeta svcStrict) !! GroupLabel))
    by (exists "true"; vm_compute; reflexivity).
  split; [exact Hs|]. split; [exact Hg|].
  destruct (getServiceTypeFromLabel_priority (svcMeta svcStrict))
    as (_ & _ & _ & _ & _ & Hboth).
  exact (Hboth Hs Hg).
Defined.

(** A paused pass still bumps the reconciliations-total counter: it is
    not free of every other side effect. *)
Lemma Reconcile_paused_moves_counter :
  ¬ (∀ query, GetThanosQuery (cluster pausedWorld) (reqNamespacedName requestQ1) = inr query →
              qPaused (querySpec query) = Some true →
       ∃ w', Query.Reconcile requestQ1 pausedWorld = Returned (emptyResult, None) w'
         ∧ cluster w' = cluster pausedWorld
         ∧ length (events w') = S (length (events pausedWorld))
         ∧ metrics w' = metrics pausedWorld).
Proof.
  intros Hclaim.
  assert (Hget : GetThanosQuery (cluster pausedWorld) (reqNamespacedName requestQ1)
                 = inr q1Paused) by (vm_compute; reflexivity).
  destruct (Hclaim q1Paused Hget eq_refl) as (w' & Hrun & _ & _ & Hm).
  vm_compute in Hrun. injection Hrun as <-.
  apply (f_equal (fun m => counterValue (ReconciliationsTotal m) ["thanos-query"])) in Hm.
  vm_compute in Hm. discriminate Hm.
Qed.

Lemma Reconcile_paused_witness :
  GetThanosQuery (cluster pausedWorld) (reqNamespacedName requestQ1) = inr q1Paused
  ∧ qPaused (querySpec q1Paused) = Some true
  ∧ ∃ w', Query.Reconcile requestQ1 pausedWorld = Returned (emptyResult, None) w'
      ∧ cluster w' = cluster pausedWorld
      ∧ calls w' = [CallGet (reqNamespacedName requestQ1)]
      ∧ map evReason (events w') = ["Paused"].
Proof.
  assert (Hget : GetThanosQuery (cluster pausedWorld) (reqNamespacedName requestQ1)
                 = inr q1Paused) by (vm_compute; reflexivity).
  split; [exact Hget|]. split; [reflexivity|].
  eexists. split.
  - exact (proj1 (Reconcile_paused requestQ1 pausedWorld) q1Paused Hget eq_refl).
  - repeat split.
Defined.


Lemma enqueueForService_routes_witness :
  Query.isQueueableStoreService svcStrict = true
  ∧ selects svcStrict q2 = false
  ∧ ∃ w', Query.enqueueForService svcStrict busyWorld = Returned [requestFor q1] w'.
Proof.
  assert (Hq : Query.isQueueableStoreService svcStrict = true) by (vm_compute; reflexivity).
  destruct (enqueueForService_routes svcStrict busyWorld) as (_ & Hroutes & Hskip).
  split; [exact Hq|]. split.
  - apply (Hskip q2 (ErrorString "unsupported match expression")). reflexivity.
  - destruct (Hroutes Hq [q1; q2; q3] ltac:(vm_compute; reflexivity)) as (w' & Hrun & _).
    exists w'. rewrite Hrun. f_equal.
Defined.

Lemma enqueueForService_list_failed_witness :
  ListThanosQueries (cluster unlistableWorld) (Namespace (svcMeta svcStrict))
  = inl (ErrorString "list failed")
  ∧ ∃ w', Query.enqueueForService svcStrict unlistableWorld = Returned [] w'
      ∧ metrics w' = metrics unlistableWorld.
Proof.
  assert (Hlist : ListThanosQueries (cluster unlistableWorld) (Namespace (svcMeta svcStrict))
                  = inl (ErrorString "list failed")) by (vm_compute; reflexivity).
  split; [exact Hlist|].
  destruct (proj1 (enqueueForService_list_failed svcStrict unlistableWorld _ Hlist))
    as (w' & Hrun & _ & _ & _ & Hm & _).
  exists w'. split; [exact Hrun|exact Hm].
Defined.


End Examples.

(** * Further properties of the controllers *)

(** ** Frames of a pass *)

Section Frames.
Context `{Client}.

Lemma passFrame_refl (w : World) : passFrame w w.
Proof. repeat split. exists []. by rewrite app_nil_r. Qed.

Lemma passFrame_trans (w1 w2 w3 : World) :
  passFrame w1 w2 → passFrame w2 w3 → passFrame w1 w3.
Proof.
  intros (Ha & Hb & evs1 & He1) (Hc & Hd & evs2 & He2).
  split; [congruence|]. split; [congruence|].
  exists (evs1 ++ evs2). by rewrite He2, He1, app_assoc.
Qed.

Lemma returnsWithin_ret {A} (a : A) : returnsWithin passFrame (ret a).
Proof. intros w. exists a, w. split; [done|apply passFrame_refl]. Qed.

Lemma returnsWithin_bind {A B} (m : Op A) (k : A → Op B) :
  returnsWithin passFrame m → (∀ a, returnsWithin passFrame (k a)) →
  returnsWithin passFrame (bind m k).
Proof.
  intros Hm Hk w. unfold bind.
  destruct (Hm w) as (a & w1 & Hrun & Hf1). rewrite Hrun.
  destruct (Hk a w1) as (b & w2 & Hrun2 & Hf2).
  exists b, w2. split; [done|]. by eapply passFrame_trans.
Qed.

Lemma returnsWithin_log (l : LogEntry) : returnsWithin passFrame (log l).
Proof. intros w. eexists _, _. split; [reflexivity|]. unfold passFrame; simpl. repeat split. exists []. by rewrite app_nil_r. Qed.

Lemma returnsWithin_event (m : ObjectMeta) (t : EventType) (reason msg : string) :
  returnsWithin passFrame (RecorderEvent m t reason msg).
Proof.
  intros w. eexists _, _. split; [reflexivity|]. repeat split. by eexists.
Qed.

Lemma returnsWithin_addClientErrorsTotal (name : string) (v : Z) :
  returnsWithin passFrame (updMetrics (addClientErrorsTotal name v)).
Proof. intros w. eexists _, _. split; [reflexivity|]. unfold passFrame; simpl. repeat split. exists []. by rewrite app_nil_r. Qed.

Lemma returnsWithin_addEndpointsConfigured (lbls : list string) (v : Z) :
  returnsWithin passFrame (updMetrics (addEndpointsConfigured lbls v)).
Proof. intros w. eexists _, _. split; [reflexivity|]. unfold passFrame; simpl. repeat split. exists []. by rewrite app_nil_r. Qed.

Lemma returnsWithin_listServices (sel : Selector) (ns : string) :
  returnsWithin passFrame (clientListServices sel ns).
Proof. intros w. eexists _, _. split; [reflexivity|]. unfold passFrame; simpl. repeat split. exists []. by rewrite app_nil_r. Qed.

Lemma returnsWithin_setControllerReference (owner : Owner) (obj : Object) :
  returnsWithin passFrame (ctrlSetControllerReference owner obj).
Proof. intros w. eexists _, _. split; [reflexivity|]. unfold passFrame; simpl. repeat split. exists []. by rewrite app_nil_r. Qed.

Lemma returnsWithin_createOrUpdate (obj : Object) (f : MutateFn) :
  returnsWithin passFrame (ctrlCreateOrUpdate obj f).
Proof.
  intros w. unfold ctrlCreateOrUpdate. destruct (CreateOrUpdate _ _ _).
  eexists _, _. split; [reflexivity|]. unfold passFrame; simpl. repeat split. exists []. by rewrite app_nil_r.
Qed.

End Frames.

Ltac within :=
  repeat first
    [ assumption
    | apply returnsWithin_ret
    | apply returnsWithin_log
    | apply returnsWithin_event
    | apply returnsWithin_addClientErrorsTotal
    | apply returnsWithin_addEndpointsConfigured
    | apply returnsWithin_listServices
    | apply returnsWithin_setControllerReference
    | apply returnsWithin_createOrUpdate
    | apply returnsWithin_bind; [|intros]
    | match goal with
      | H : ∀ x, returnsWithin _ _ |- _ => apply H
      | H : ∀ x y, returnsWithin _ _ |- _ => apply H
      | H : ∀ x y z, returnsWithin _ _ |- _ => apply H
      | |- returnsWithin _ (match ?x with _ => _ end) => destruct x
      | |- returnsWithin _ (if ?b then _ else _) => destruct b
      end ].

Section PassAccounting.
Context `{Client}.

Lemma Query_endpoints_loop_returns (query : ThanosQuery) (items : list Service) :
  ∀ i endpoints,
    returnsWithin passFrame (Query.getStoreAPIServiceEndpoints_loop query i items endpoints).
Proof. induction items as [|svc rest IH]; intros i endpoints; simpl; within. Qed.

Lemma Query_syncObjects_loop_returns (query : ThanosQuery) (objs : list Object) :
  ∀ errCount, returnsWithin passFrame (Query.syncObjects_loop query objs errCount).
Proof.
  induction objs as [|obj rest IH]; intros errCount; simpl; [within|].
  unfold Query.syncObject, Query.createOrUpdateObject. within.
Qed.

Lemma Query_syncResources_returns (query : ThanosQuery) :
  returnsWithin passFrame (Query.syncResources query).
Proof.
  pose proof (Query_endpoints_loop_returns query).
  pose proof (Query_syncObjects_loop_returns query).
  unfold Query.syncResources, Query.buildQuerier, Query.getStoreAPIServiceEndpoints,
    Query.syncObjects.
  apply returnsWithin_bind; [within|]. intros [querierObjs [e|]]; [within|].
  apply returnsWithin_bind; [|intros; within].
  unfold Query.buildQueryFrontend.
  destruct (qQueryFrontend (querySpec query)); within.
Qed.

Lemma Store_syncObjects_loop_returns (store : ThanosStore) (objs : list Object) :
  ∀ errCount, returnsWithin passFrame (Store.syncObjects_loop store objs errCount).
Proof.
  induction objs as [|obj rest IH]; intros errCount; simpl; [within|].
  unfold Store.syncObject, Store.createOrUpdateObject. within.
Qed.

Lemma Store_syncResources_returns (store : ThanosStore) (q : Quantity) :
  ParseQuantity (sStorageSize (storeSpec store)) = inr q →
  returnsWithin passFrame (Store.syncResources store).
Proof.
  intros Hparse. pose proof (Store_syncObjects_loop_returns store).
  unfold Store.syncResources, Store.buildStore, Store.MustParse, Store.syncObjects.
  rewrite Hparse. within.
Qed.

End PassAccounting.

(** ** Accounting of a pass *)

Section Accounting.
Context `{Client}.

Ltac account :=
  eexists _, _; split; [reflexivity|]; simpl;
  repeat match goal with
  | H : ReconciliationsTotal (metrics _) = _ |- _ => rewrite H; clear H
  | H : ReconciliationsFailedTotal (metrics _) = _ |- _ => rewrite H; clear H
  end;
  rewrite ?counterValue_counterAdd;
  split; [lia|]; split; [lia|].

(** X5.  A pass of the query controller always returns, never asks for
    a requeue and never panics.  It adds one to the
    reconciliations-total counter, and one to the failed-reconciliations
    counter exactly when it returns an error; in that case the last
    event it recorded is a warning with reason ["GetFailed"] or
    ["SyncFailed"]. *)
Theorem Query_Reconcile_accounting (req : Request) (w : World) :
  ∃ err w',
    Query.Reconcile req w = Returned (emptyResult, err) w'
    ∧ counterValue (ReconciliationsTotal (metrics w')) [QueryName]
      = counterValue (ReconciliationsTotal (metrics w)) [QueryName] + 1
    ∧ counterValue (ReconciliationsFailedTotal (metrics w')) [QueryName]
      = counterValue (ReconciliationsFailedTotal (metrics w)) [QueryName]
        + (if err is Some _ then 1 else 0)
    ∧ (∀ e, err = Some e →
       ∃ evs ev, events w' = events w ++ evs ++ [ev] ∧ reportsFailure ev).
Proof.
  unfold Query.Reconcile. run_op.
  destruct (GetThanosQuery _ _) as [err|query].
  - destruct (IsNotFound err); simpl; account.
    + discriminate.
    + intros e _. eexists [], _. split; [reflexivity|]. split; [done|by left].
  - destruct (match qPaused (querySpec query) with Some b => b | None => false end).
    + account. discriminate.
    + match goal with
      | |- context [Query.syncResources query ?w1] =>
          destruct (Query_syncResources_returns query w1)
            as (err & w2 & Hrun & HRT & HRF & evs & Hev)
      end.
      rewrite Hrun. simpl in HRT, HRF, Hev. destruct err as [e|]; simpl.
      * account. intros e' _. exists evs. eexists. rewrite Hev, <- app_assoc.
        split; [reflexivity|]. split; [done|by right].
      * account. discriminate.
Qed.

(** X6.  A pass of the store controller returns, with the same
    accounting, whenever the storage size of the fetched resource parses
    (or is never parsed because the fetch failed or the resource is
    paused). *)
Theorem Store_Reconcile_accounting (req : Request) (w : World) :
  (∀ store, GetThanosStore (cluster w) (reqNamespacedName req) = inr store →
            sPaused (storeSpec store) ≠ Some true →
            ∃ q, ParseQuantity (sStorageSize (storeSpec store)) = inr q) →
  ∃ err w',
    Store.Reconcile req w = Returned (emptyResult, err) w'
    ∧ counterValue (ReconciliationsTotal (metrics w')) [StoreName]
      = counterValue (ReconciliationsTotal (metrics w)) [StoreName] + 1
    ∧ counterValue (ReconciliationsFailedTotal (metrics w')) [StoreName]
      = counterValue (ReconciliationsFailedTotal (metrics w)) [StoreName]
        + (if err is Some _ then 1 else 0)
    ∧ (∀ e, err = Some e →
       ∃ evs ev, events w' = events w ++ evs ++ [ev] ∧ reportsFailure ev).
Proof.
  intros Hsize. unfold Store.Reconcile. run_op.
  destruct (GetThanosStore _ _) as [err|store].
  - destruct (IsNotFound err); simpl; account.
    + discriminate.
    + intros e _. eexists [], _. split; [reflexivity|]. split; [done|by left].
  - assert (Hsync : sPaused (storeSpec store) ≠ Some true →
              ∀ w1, ∃ err w2, Store.syncResources store w1 = Returned err w2
                              ∧ passFrame w1 w2).
    { intros Hp. destruct (Hsize store eq_refl Hp) as (q & Hq).
      apply (Store_syncResources_returns store q Hq). }
    destruct (sPaused (storeSpec store)) as [[|]|].
    + account. discriminate.
    + match goal with
      | |- context [Store.syncResources store ?w1] =>
          destruct (Hsync ltac:(discriminate) w1)
            as (err & w2 & Hrun & HRT & HRF & evs & Hev)
      end.
      rewrite Hrun. simpl in HRT, HRF, Hev. destruct err as [e|]; simpl.
      * account. intros e' _. exists evs. eexists. rewrite Hev, <- app_assoc.
        split; [reflexivity|]. split; [done|by right].
      * account. discriminate.
    + match goal with
      | |- context [Store.syncResources store ?w1] =>
          destruct (Hsync ltac:(discriminate) w1)
            as (err & w2 & Hrun & HRT & HRF & evs & Hev)
      end.
      rewrite Hrun. simpl in HRT, HRF, Hev. destruct err as [e|]; simpl.
      * account. intros e' _. exists evs. eexists. rewrite Hev, <- app_assoc.
        split; [reflexivity|]. split; [done|by right].
      * account. discriminate.
Qed.

End Accounting.

(** ** Endpoint discovery, continued *)

Section DiscoveryMore.
Context `{Client}.

(** When every listed service has a gRPC port, the loop overwrites the
    slots [i], [i+1], ... of the slice with the endpoints of the services,
    in listing order, and logs nothing. *)
Lemma getStoreAPIServiceEndpoints_loop_fills (query : ThanosQuery) (items : list Service) :
  ∀ (i : nat) (endpoints : list Endpoint) (w : World),
    (∀ s, s ∈ items → hasGrpcPort s = true) →
    (i + length items ≤ length endpoints)%nat →
    ∃ w',
      Query.getStoreAPIServiceEndpoints_loop query i items endpoints w
      = Returned (take i endpoints ++ map endpointFor items
                  ++ drop (i + length items) endpoints) w'
      ∧ cluster w' = cluster w ∧ calls w' = calls w
      ∧ events w' = events w ∧ logs w' = logs w.
Proof.
  induction items as [|svc rest IH]; intros i endpoints w Hall Hlen.
  - exists w. simpl. unfold ret. rewrite Nat.add_0_r, take_drop. done.
  - simpl in *.
    assert (Hsvc : hasGrpcPort svc = true) by (apply Hall; left).
    unfold endpointFor at 1. unfold hasGrpcPort in Hsvc.
    destruct (IsGrpcServiceWithLabels svc requiredStoreServiceLabels) as [port ok].
    simpl in Hsvc. subst ok. simpl. run_op.
    match goal with
    | |- context [Query.getStoreAPIServiceEndpoints_loop query (S i) rest ?eps ?w1] =>
        destruct (IH (S i) eps w1) as (w' & Hrun & Hcl & Hcalls & Hev & Hlogs)
    end.
    { intros s Hs. apply Hall. by right. }
    { rewrite length_insert. lia. }
    exists w'. rewrite Hrun. split; [|done].
    apply (f_equal (fun l => Returned l w')).
    assert (Hi : (i < length endpoints)%nat) by lia.
    rewrite (take_S_r _ _ _ (list_lookup_insert_eq endpoints i _ Hi)).
    rewrite take_insert_ge by lia. rewrite drop_insert_lt by lia.
    rewrite <- app_assoc. simpl. replace (i + S (length rest))%nat with (S (i + length rest)) by lia. done.
Qed.

(** X1.  With no matching service the discoverer records one
    ["NoEndpointsFound"] warning and returns the empty list without an
    error; nothing is logged or counted, and [buildQuerier] goes on to
    build the query objects. *)
Theorem getStoreAPIServiceEndpoints_no_services (query : ThanosQuery) (w : World)
    (labelSelector : Selector) :
  BuildLabelSelectorFrom (qStoreLabelSelector (querySpec query))
    requiredStoreServiceLabels = inr labelSelector →
  ListServices (cluster w) labelSelector (Namespace (queryMeta query)) = inr [] →
  Query.getStoreAPIServiceEndpoints query w
  = Returned ([], None)
      {| cluster := cluster w;
         calls := calls w ++ [CallListServices (Namespace (queryMeta query))];
         events := events w ++
           [mkEvent (keyOf (queryMeta query)) EventTypeWarning "NoEndpointsFound"
              "No StoreAPI services found"];
         logs := logs w;
         metrics := metrics w |}
  ∧ ∃ objs, returned (Query.buildQuerier query w) = Some (objs, None).
Proof.
  intros Hsel Hlist.
  assert (Hrun : Query.getStoreAPIServiceEndpoints query w
    = Returned ([], None)
      {| cluster := cluster w;
         calls := calls w ++ [CallListServices (Namespace (queryMeta query))];
         events := events w ++
           [mkEvent (keyOf (queryMeta query)) EventTypeWarning "NoEndpointsFound"
              "No StoreAPI services found"];
         logs := logs w;
         metrics := metrics w |}).
  { unfold Query.getStoreAPIServiceEndpoints. rewrite Hsel. run_op. by rewrite Hlist. }
  split; [exact Hrun|].
  unfold Query.buildQuerier, bind. rewrite Hrun. simpl. by eexists.
Qed.

(** X2.  The discoverer fails in two ways.  A selector that cannot be
    built ends it before any call, with the world untouched; a failing
    [List] ends it with nothing but the call itself on record.  Either
    way the result is the empty list and the error, and no event is
    recorded. *)
Theorem getStoreAPIServiceEndpoints_fails (query : ThanosQuery) (w : World) :
  (∀ e, BuildLabelSelectorFrom (qStoreLabelSelector (querySpec query))
          requiredStoreServiceLabels = inl e →
     Query.getStoreAPIServiceEndpoints query w = Returned ([], Some e) w)
  ∧ (∀ labelSelector e,
       BuildLabelSelectorFrom (qStoreLabelSelector (querySpec query))
         requiredStoreServiceLabels = inr labelSelector →
       ListServices (cluster w) labelSelector (Namespace (queryMeta query)) = inl e →
     Query.getStoreAPIServiceEndpoints query w
     = Returned ([], Some e)
         {| cluster := cluster w;
            calls := calls w ++ [CallListServices (Namespace (queryMeta query))];
            events := events w; logs := logs w; metrics := metrics w |}).
Proof.
  split.
  - intros e Hsel. unfold Query.getStoreAPIServiceEndpoints. by rewrite Hsel.
  - intros sel e Hsel Hlist. unfold Query.getStoreAPIServiceEndpoints.
    rewrite Hsel. run_op. by rewrite Hlist.
Qed.

(** X3.  When every listed service has a gRPC port, the discoverer
    returns one endpoint per service, in listing order, each carrying the
    service's name, namespace, port and classified type; it logs
    nothing, and counts one configured endpoint per service. *)
Theorem getStoreAPIServiceEndpoints_all_valid (query : ThanosQuery) (w : World)
    (labelSelector : Selector) (items : list Service) :
  BuildLabelSelectorFrom (qStoreLabelSelector (querySpec query))
    requiredStoreServiceLabels = inr labelSelector →
  ListServices (cluster w) labelSelector (Namespace (queryMeta query)) = inr items →
  (∀ s, s ∈ items → hasGrpcPort s = true) →
  ∃ w',
    Query.getStoreAPIServiceEndpoints query w = Returned (map endpointFor items, None) w'
    ∧ logs w' = logs w
    ∧ cluster w' = cluster w
    ∧ metrics w' = countEndpoints query items (metrics w).
Proof.
  intros Hsel Hlist Hall.
  unfold Query.getStoreAPIServiceEndpoints. rewrite Hsel. run_op. rewrite Hlist.
  destruct items as [|s0 rest] eqn:Hitems; [by eexists|].
  rewrite <- Hitems in *. replace (length items =? 0)%nat with false
    by (symmetry; apply Nat.eqb_neq; subst items; simpl; lia).
  match goal with
  | |- context [Query.getStoreAPIServiceEndpoints_loop query 0 items ?eps ?w1] =>
      destruct (getStoreAPIServiceEndpoints_loop_fills query items 0 eps w1 Hall)
        as (w' & Hrun & Hcl & Hcalls & Hev & Hlogs)
  end.
  { rewrite length_replicate. lia. }
  match type of Hrun with
  | Query.getStoreAPIServiceEndpoints_loop query 0 items ?eps ?w1 = _ =>
      destruct (getStoreAPIServiceEndpoints_loop_skips query items 0 eps w1)
        as (eps2 & w2 & Hrun2 & _ & _ & _ & _ & _ & _ & Hmet)
  end.
  rewrite Hrun in Hrun2. injection Hrun2 as _ <-.
  rewrite Hrun. exists w'. simpl.
  rewrite drop_ge by (rewrite length_replicate; lia).
  rewrite app_nil_r. done.
Qed.

(** X4.  When discovery fails, the pass of the query controller fails
    before anything is written: [Reconcile] returns the discovery error,
    records one ["SyncFailed"] warning carrying its text and counts one
    failed reconciliation.  No owner reference is set, nothing is created
    or updated, nothing is logged, and the client-error counter does not
    move, not even for a failed [List]. *)
Theorem Reconcile_discovery_failed (req : Request) (w : World) (query : ThanosQuery) :
  GetThanosQuery (cluster w) (reqNamespacedName req) = inr query →
  qPaused (querySpec query) ≠ Some true →
  (∀ e, BuildLabelSelectorFrom (qStoreLabelSelector (querySpec query))
          requiredStoreServiceLabels = inl e →
     Query.Reconcile req w
     = Returned (emptyResult, Some e)
         {| cluster := cluster w;
            calls := calls w ++ [CallGet (reqNamespacedName req)];
            events := events w ++
              [mkEvent (keyOf (queryMeta query)) EventTypeWarning "SyncFailed"
                 ("Failed to sync resources: " +:+ Error e)];
            logs := logs w;
            metrics := addReconciliationsFailedTotal QueryName 1
                         (addReconciliationsTotal QueryName 1 (metrics w)) |})
  ∧ (∀ labelSelector e,
       BuildLabelSelectorFrom (qStoreLabelSelector (querySpec query))
         requiredStoreServiceLabels = inr labelSelector →
       ListServices (cluster w) labelSelector (Namespace (queryMeta query)) = inl e →
     Query.Reconcile req w
     = Returned (emptyResult, Some e)
         {| cluster := cluster w;
            calls := calls w ++ [CallGet (reqNamespacedName req);
                                 CallListServices (Namespace (queryMeta query))];
            events := events w ++
              [mkEvent (keyOf (queryMeta query)) EventTypeWarning "SyncFailed"
                 ("Failed to sync resources: " +:+ Error e)];
            logs := logs w;
            metrics := addReconciliationsFailedTotal QueryName 1
                         (addReconciliationsTotal QueryName 1 (metrics w)) |}).
Proof.
  intros Hget Hp. split.
  - intros e Hsel. unfold Query.Reconcile. run_op. rewrite Hget.
    unfold Query.syncResources, Query.buildQuerier, Query.getStoreAPIServiceEndpoints.
    rewrite Hsel. run_op.
    destruct (qPaused (querySpec query)) as [[|]|]; [congruence|reflexivity..].
  - intros sel e Hsel Hlist. unfold Query.Reconcile. run_op. rewrite Hget.
    unfold Query.syncResources, Query.buildQuerier, Query.getStoreAPIServiceEndpoints.
    rewrite Hsel.
    destruct (qPaused (querySpec query)) as [[|]|]; [congruence|..];
      run_op; rewrite Hlist; simpl; rewrite <- app_assoc; reflexivity.
Qed.

End DiscoveryMore.

(** ** What the sync loop writes and records *)

Section SyncTrace.
Context `{Client}.

Lemma written_app (t1 t2 : list Call) : written (t1 ++ t2) = written t1 ++ written t2.
Proof. unfold written. apply omap_app. Qed.

Lemma omap_cons_app {A B} (f : A → option B) (x : A) (l : list A) :
  omap f (x :: l) = match f x with Some y => [y] | None => [] end ++ omap f l.
Proof. simpl. by destruct (f x). Qed.

Lemma Query_syncObjects_loop_trace (query : ThanosQuery) (objs : list Object) :
  ∀ errCount w, ∃ errCount' tr w',
    Query.syncObjects_loop query objs errCount w = Returned errCount' w'
    ∧ calls w' = calls w ++ tr
    ∧ written tr
      = omap (prepared (OwnerQuery query) (Namespace (queryMeta query))) objs
    ∧ events w' = events w.
Proof.
  induction objs as [|obj rest IH]; intros errCount w.
  - exists errCount, [], w. simpl. unfold ret. by rewrite app_nil_r.
  - change (Query.syncObjects_loop query (obj :: rest) errCount)
      with (bind (Query.syncObject query obj errCount)
              (fun e => Query.syncObjects_loop query rest e)).
    rewrite omap_cons_app.
    remember (omap (prepared (OwnerQuery query) (Namespace (queryMeta query))) rest)
      as P eqn:HP in *.
    unfold bind at 1, Query.syncObject, Query.createOrUpdateObject, prepared.
    destruct (IsNamespacedResource obj);
      unfold ctrlSetControllerReference, ctrlCreateOrUpdate; run_op;
      repeat match goal with
      | |- context [SetControllerReference ?o ?x] =>
          destruct (SetControllerReference o x) as [?e|?o'] eqn:?Hscr; simpl
      | |- context [CreateOrUpdate ?c ?o ?f] =>
          destruct (CreateOrUpdate c o f) as [[?e|?op] ?c'] eqn:?Hcu; simpl
      end;
      match goal with
      | |- context [Query.syncObjects_loop query rest ?e1 ?w1] =>
          destruct (IH e1 w1) as (e' & tr & w' & Hrun & Hcalls & Hwr & Hev)
      end;
      rewrite Hrun; simpl in Hcalls, Hev; rewrite <- ?app_assoc in Hcalls;
      eexists e', _, w'; (split; [reflexivity|]);
      (split; [exact Hcalls|]); rewrite ?written_app, Hwr;
      (split; [reflexivity|exact Hev]).
Qed.

Lemma Store_syncObjects_loop_trace (store : ThanosStore) (objs : list Object) :
  ∀ errCount w, ∃ errCount' tr w',
    Store.syncObjects_loop store objs errCount w = Returned errCount' w'
    ∧ calls w' = calls w ++ tr
    ∧ written tr
      = omap (prepared (OwnerStore store) (Namespace (storeMeta store))) objs
    ∧ events w' = events w ++ omap (syncFailedEvent store) tr.
Proof.
  induction objs as [|obj rest IH]; intros errCount w.
  - exists errCount, [], w. simpl. unfold ret. by rewrite !app_nil_r.
  - change (Store.syncObjects_loop store (obj :: rest) errCount)
      with (bind (Store.syncObject store obj errCount)
              (fun e => Store.syncObjects_loop store rest e)).
    rewrite omap_cons_app.
    remember (omap (prepared (OwnerStore store) (Namespace (storeMeta store))) rest)
      as P eqn:HP in *.
    unfold bind at 1, Store.syncObject, Store.createOrUpdateObject, prepared.
    destruct (IsNamespacedResource obj);
      unfold ctrlSetControllerReference, ctrlCreateOrUpdate; run_op;
      repeat match goal with
      | |- context [SetControllerReference ?o ?x] =>
          destruct (SetControllerReference o x) as [?e|?o'] eqn:?Hscr; simpl
      | |- context [CreateOrUpdate ?c ?o ?f] =>
          destruct (CreateOrUpdate c o f) as [[?e|?op] ?c'] eqn:?Hcu; simpl
      end;
      match goal with
      | |- context [Store.syncObjects_loop store rest ?e1 ?w1] =>
          destruct (IH e1 w1) as (e' & tr & w' & Hrun & Hcalls & Hwr & Hev)
      end;
      rewrite Hrun; simpl in Hcalls, Hev; rewrite <- ?app_assoc in Hcalls;
      rewrite <- ?app_assoc in Hev;
      eexists e', _, w'; (split; [reflexivity|]);
      (split; [exact Hcalls|]); rewrite ?written_app, ?omap_app, Hwr;
      (split; [reflexivity|exact Hev]).
Qed.

(** X7.  The sync pass hands to create-or-update, in order, exactly the
    prepared desired objects: a namespaced object is written only after
    it has been moved to the parent's namespace and has received its
    owner reference, an object whose owner reference cannot be set is
    never written, and a cluster-scoped object is written as it is.
    This holds for both controllers. *)
Theorem syncObjects_writes_prepared (objs : list Object) (w : World) :
  (∀ query, ∃ tr,
     calls (finalWorld (Query.syncObjects query objs w)) = calls w ++ tr
     ∧ written tr
       = omap (prepared (OwnerQuery query) (Namespace (queryMeta query))) objs)
  ∧ (∀ store, ∃ tr,
     calls (finalWorld (Store.syncObjects store objs w)) = calls w ++ tr
     ∧ written tr
       = omap (prepared (OwnerStore store) (Namespace (storeMeta store))) objs).
Proof.
  split.
  - intros query.
    destruct (Query_syncObjects_loop_trace query objs 0 w)
      as (e' & tr & w' & Hrun & Hcalls & Hwr & _).
    exists tr. unfold Query.syncObjects, bind. rewrite Hrun.
    destruct (e' >? 0); done.
  - intros store.
    destruct (Store_syncObjects_loop_trace store objs 0 w)
      as (e' & tr & w' & Hrun & Hcalls & Hwr & _).
    exists tr. unfold Store.syncObjects, bind. rewrite Hrun.
    destruct (e' >? 0); done.
Qed.

(** X8.  The two sync loops differ in what they record.  The query
    controller records no event while syncing.  The store controller
    records one ["SyncFailed"] warning, naming the object and the error,
    for each create-or-update that fails, and none for an owner reference
    that cannot be set. *)
Theorem syncObjects_events (objs : list Object) (w : World) :
  (∀ query, events (finalWorld (Query.syncObjects query objs w)) = events w)
  ∧ (∀ store, ∃ tr,
     calls (finalWorld (Store.syncObjects store objs w)) = calls w ++ tr
     ∧ events (finalWorld (Store.syncObjects store objs w))
       = events w ++ omap (syncFailedEvent store) tr).
Proof.
  split.
  - intros query.
    destruct (Query_syncObjects_loop_trace query objs 0 w)
      as (e' & tr & w' & Hrun & _ & _ & Hev).
    unfold Query.syncObjects, bind. rewrite Hrun.
    destruct (e' >? 0); done.
  - intros store.
    destruct (Store_syncObjects_loop_trace store objs 0 w)
      as (e' & tr & w' & Hrun & Hcalls & _ & Hev).
    exists tr. unfold Store.syncObjects, bind. rewrite Hrun.
    destruct (e' >? 0); done.
Qed.

End SyncTrace.

(** ** The watch, continued *)

Section WatchMore.
Context `{Client}.

(** X9.  Whatever the service predicate is, the predicate composed in
    [SetupWithManager] admits an event exactly when the service
    predicate admits it and the labels or the generation changed; the
    second occurrence of the service predicate in the generation branch
    changes nothing.  An event the service predicate rejects therefore
    never reaches the router. *)
Theorem withPredicate_factors (servicePredicate : Query.Predicate)
    (ev : Query.WatchEvent) :
  Query.admits (Query.withPredicate servicePredicate) ev
  = Query.admits servicePredicate ev
    && (Query.admits Query.LabelChangedPredicate ev
        || Query.admits Query.GenerationChangedPredicate ev)
  ∧ (Query.admits servicePredicate ev = false →
     ∀ w, Query.serviceWatch (Query.withPredicate servicePredicate) ev w
          = Returned [] w).
Proof.
  assert (Hfac : Query.admits (Query.withPredicate servicePredicate) ev
                 = Query.admits servicePredicate ev
                   && (Query.admits Query.LabelChangedPredicate ev
                       || Query.admits Query.GenerationChangedPredicate ev)).
  { destruct ev as [o|old new|o|o]; simpl.
    - by destruct (Query.pCreate servicePredicate o).
    - destruct (Query.pUpdate servicePredicate old new); simpl; [|done].
      destruct (bool_decide _); simpl; [|done]. by destruct (_ =? _).
    - by destruct (Query.pDelete servicePredicate o).
    - by destruct (Query.pGeneric servicePredicate o). }
  split; [exact Hfac|].
  intros Hno w. unfold Query.serviceWatch. by rewrite Hfac, Hno.
Qed.

Lemma enqueueForService_loop_logs (obj : Service) (items : list ThanosQuery) :
  ∀ (requests : list Request) (w : World), ∃ requests' w',
    Query.enqueueForService_loop obj items requests w = Returned requests' w'
    ∧ logs w' = logs w ++ omap selectorError items.
Proof.
  induction items as [|query rest IH]; intros requests w.
  - exists requests, w. simpl. unfold ret. by rewrite app_nil_r.
  - change (omap selectorError (query :: rest))
      with (match selectorError query with
            | Some l => l :: omap selectorError rest
            | None => omap selectorError rest
            end).
    simpl. unfold selectorError at 1.
    destruct (BuildLabelSelectorFrom _ _) as [err|selector]; simpl.
    + run_op.
      match goal with
      | |- context [Query.enqueueForService_loop obj rest requests ?w1] =>
          destruct (IH requests w1) as (r' & w' & Hrun & Hlogs)
      end.
      exists r', w'. rewrite Hrun. simpl in Hlogs. by rewrite <- app_assoc in Hlogs.
    + destruct (Matches selector (ObjLabels (svcMeta obj))); apply IH.
Qed.

(** X10.  For a queueable service whose namespace can be listed, the
    router writes one error line per listed query whose selector cannot
    be built, in listing order, and no other line. *)
Theorem enqueueForService_logs (obj : Service) (w : World) (items : list ThanosQuery) :
  Query.isQueueableStoreService obj = true →
  ListThanosQueries (cluster w) (Namespace (svcMeta obj)) = inr items →
  logs (finalWorld (Query.enqueueForService obj w))
  = logs w ++ omap selectorError items.
Proof.
  intros Hq Hlist. unfold Query.enqueueForService. rewrite Hq. run_op. rewrite Hlist.
  match goal with
  | |- context [Query.enqueueForService_loop obj items [] ?w1] =>
      destruct (enqueueForService_loop_logs obj items [] w1) as (r' & w' & Hrun & Hlogs)
  end.
  rewrite Hrun. done.
Qed.

(** X11.  The router always returns, and it only reads: whatever the
    service and the state of the cluster, the cluster is left as it was,
    no event is recorded, at most the one [List] call is made, and the
    service-watch counter grows by exactly the number of requests
    returned; no other counter moves, not even when the [List] fails. *)
Theorem enqueueForService_only_reads (obj : Service) (w : World) :
  ∃ requests w',
    Query.enqueueForService obj w = Returned requests w'
    ∧ cluster w' = cluster w
    ∧ events w' = events w
    ∧ (calls w' = calls w
       ∨ calls w' = calls w ++ [CallListThanosQueries (Namespace (svcMeta obj))])
    ∧ ServiceWatchesReconciliationsTotal (metrics w')
      = ServiceWatchesReconciliationsTotal (metrics w) + Z.of_nat (length requests)
    ∧ ClientErrorsTotal (metrics w') = ClientErrorsTotal (metrics w)
    ∧ ReconciliationsTotal (metrics w') = ReconciliationsTotal (metrics w)
    ∧ ReconciliationsFailedTotal (metrics w') = ReconciliationsFailedTotal (metrics w)
    ∧ EndpointsConfigured (metrics w') = EndpointsConfigured (metrics w).
Proof.
  unfold Query.enqueueForService.
  destruct (Query.isQueueableStoreService obj); simpl.
  - run_op. destruct (ListThanosQueries _ _) as [err|items].
    + eexists _, _. split; [reflexivity|]. simpl.
      repeat split; try done; [by right | lia].
    + match goal with
      | |- context [Query.enqueueForService_loop obj items [] ?w1] =>
          destruct (enqueueForService_loop_filter obj items [] w1)
            as (w' & Hrun & Hcl & Hcalls & Hev & Hm)
      end.
      rewrite Hrun. eexists _, _. split; [reflexivity|]. simpl.
      rewrite Hm. repeat split; try done. by right.
  - exists [], w. unfold ret. repeat split; try done; [by left | simpl; lia].
Qed.

End WatchMore.

(** ** From the resource to the objects written *)

Section Builders.
Context `{Client}.

Lemma getStoreAPIServiceEndpoints_listed (query : ThanosQuery) (w : World)
    (labelSelector : Selector) (items : list Service) :
  BuildLabelSelectorFrom (qStoreLabelSelector (querySpec query))
    requiredStoreServiceLabels = inr labelSelector →
  ListServices (cluster w) labelSelector (Namespace (queryMeta query)) = inr items →
  ∃ endpoints w',
    Query.getStoreAPIServiceEndpoints query w = Returned (endpoints, None) w'
    ∧ calls w' = calls w ++ [CallListServices (Namespace (queryMeta query))].
Proof.
  intros Hsel Hlist.
  unfold Query.getStoreAPIServiceEndpoints. rewrite Hsel. run_op. rewrite Hlist.
  destruct (length items =? 0)%nat; [by eexists _, _|].
  match goal with
  | |- context [Query.getStoreAPIServiceEndpoints_loop query 0 items ?eps ?w1] =>
      destruct (getStoreAPIServiceEndpoints_loop_skips query items 0 eps w1)
        as (eps' & w' & Hrun & _ & _ & Hcalls & _)
  end.
  rewrite Hrun. by exists eps', w'.
Qed.

(** X12.  When discovery succeeds, a pass of the query controller
    writes the prepared objects of the querier followed by those of the
    query frontend, if one is configured.  The querier is built from the
    discovered endpoints and the fixed settings (timeout 15m, lookback
    delta 5m, 20 concurrent queries); the frontend is named after the
    query with the suffix ["-frontend"] and is pointed at the query's
    service and HTTP port. *)
Theorem syncResources_writes_built_objects (query : ThanosQuery) (w : World)
    (labelSelector : Selector) (items : list Service) :
  BuildLabelSelectorFrom (qStoreLabelSelector (querySpec query))
    requiredStoreServiceLabels = inr labelSelector →
  ListServices (cluster w) labelSelector (Namespace (queryMeta query)) = inr items →
  ∃ qo frontendObjs tr,
    calls (finalWorld (Query.syncResources query w))
    = calls w ++ [CallListServices (Namespace (queryMeta query))] ++ tr
    ∧ written tr
      = omap (prepared (OwnerQuery query) (Namespace (queryMeta query)))
          (BuildQuery qo ++ frontendObjs)
    ∧ returned (Query.getStoreAPIServiceEndpoints query w) = Some (qoEndpoints qo, None)
    ∧ optName (qoOptions qo) = Name (queryMeta query)
    ∧ optNamespace (qoOptions qo) = Namespace (queryMeta query)
    ∧ qoTimeout qo = "15m" ∧ qoLookbackDelta qo = "5m" ∧ qoMaxConcurrent qo = 20
    ∧ match qQueryFrontend (querySpec query) with
      | None => frontendObjs = []
      | Some frontend =>
          ∃ fo, frontendObjs = BuildQueryFrontend fo
            ∧ optName (qfoOptions fo) = Name (queryMeta query) +:+ "-frontend"
            ∧ optNamespace (qfoOptions fo) = Namespace (queryMeta query)
            ∧ optReplicas (qfoOptions fo) = qfReplicas frontend
            ∧ qfoQueryService fo = Name (queryMeta query)
            ∧ qfoQueryPort fo = HTTPPort
      end.
Proof.
  intros Hsel Hlist.
  destruct (getStoreAPIServiceEndpoints_listed query w labelSelector items Hsel Hlist)
    as (eps & w1 & Hdisc & Hcalls1).
  unfold Query.syncResources, Query.buildQuerier, bind. rewrite Hdisc. unfold ret.
  unfold Query.buildQueryFrontend, RecorderEvent, Query.syncObjects, bind.
  destruct (qQueryFrontend (querySpec query)) as [frontend|]; simpl.
  - match goal with
    | |- context [Query.syncObjects_loop query ?objs 0 ?w2] =>
        destruct (Query_syncObjects_loop_trace query objs 0 w2)
          as (e' & tr & w' & Hrun & Hcalls & Hwr & _)
    end.
    rewrite Hrun. simpl in Hcalls. rewrite Hcalls1, <- app_assoc in Hcalls.
    eexists _, _, tr. split; [by destruct (e' >? 0)|].
    split; [exact Hwr|]. simpl. repeat split. eexists. repeat split.
  - match goal with
    | |- context [Query.syncObjects_loop query ?objs 0 ?w2] =>
        destruct (Query_syncObjects_loop_trace query objs 0 w2)
          as (e' & tr & w' & Hrun & Hcalls & Hwr & _)
    end.
    rewrite Hrun. rewrite Hcalls1, <- app_assoc in Hcalls.
    eexists _, [], tr. split; [by destruct (e' >? 0)|].
    rewrite app_nil_r. split; [exact Hwr|]. simpl. repeat split.
Qed.

(** X13.  When the storage size parses, a pass of the store controller
    writes the prepared objects built from the parsed quantity, the
    shard count, the per-shard replica count and the time bounds of the
    resource, and makes no other call. *)
Theorem Store_syncResources_writes_built_objects (store : ThanosStore) (w : World)
    (q : Quantity) :
  ParseQuantity (sStorageSize (storeSpec store)) = inr q →
  ∃ so tr,
    calls (finalWorld (Store.syncResources store w)) = calls w ++ tr
    ∧ written tr
      = omap (prepared (OwnerStore store) (Namespace (storeMeta store))) (BuildStores so)
    ∧ forallb isSyncCall tr = true
    ∧ soStorageSize so = q
    ∧ soShards so = Shards (sShardingStrategy (storeSpec store))
    ∧ soMin so = OptionalToString (sMinTime (storeSpec store))
    ∧ soMax so = OptionalToString (sMaxTime (storeSpec store))
    ∧ ∃ o, soOptions so = ApplyDefaults o
        ∧ optName o = Name (storeMeta store)
        ∧ optNamespace o = Namespace (storeMeta store)
        ∧ optReplicas o = ShardReplicas (sShardingStrategy (storeSpec store)).
Proof.
  intros Hparse.
  unfold Store.syncResources, Store.buildStore, Store.MustParse. rewrite Hparse.
  unfold bind, ret, Store.syncObjects, bind.
  match goal with
  | |- context [Store.syncObjects_loop store ?objs 0 w] =>
      destruct (Store_syncObjects_loop_trace store objs 0 w)
        as (e' & tr & w' & Hrun & Hcalls & Hwr & _);
      destruct (sync_loop (Store.syncObject store) (Store.syncObjects_loop store) false
                  ltac:(reflexivity) ltac:(reflexivity)
                  (Store_syncObject_iteration store) objs 0 w)
        as (e2 & tr2 & w2 & Hrun2 & Hcalls2 & _ & Hsync & _)
  end.
  rewrite Hrun in Hrun2. injection Hrun2 as <- <-.
  rewrite Hcalls in Hcalls2. apply app_inv_head in Hcalls2. subst tr2.
  rewrite Hrun. eexists _, tr. split; [by destruct (e' >? 0)|].
  split; [exact Hwr|]. split; [exact Hsync|]. simpl. repeat split.
  eexists. repeat split.
Qed.

End Builders.

(** * Further runs on the sample instance *)

Section MoreExamples.
Import Sample.
#[local] Existing Instance platform.
#[local] Existing Instance server.
#[local] Existing Instance machinery.
#[local] Existing Instance manifests.
#[local] Existing Instance client.

Lemma getStoreAPIServiceEndpoints_no_services_witness :
  returned (Query.getStoreAPIServiceEndpoints q3 busyWorld) = Some ([], None)
  ∧ map evReason (events (finalWorld (Query.getStoreAPIServiceEndpoints q3 busyWorld)))
    = ["NoEndpointsFound"].
Proof.
  destruct (getStoreAPIServiceEndpoints_no_services q3 busyWorld
              ((requiredStoreServiceLabels : Labels) ∪ {["tenant" := "other"]}))
    as [Hrun _]; [vm_compute; reflexivity..|].
  rewrite Hrun. split; reflexivity.
Defined.

Lemma getStoreAPIServiceEndpoints_fails_witness :
  Query.getStoreAPIServiceEndpoints q2 busyWorld
  = Returned ([], Some (ErrorString "unsupported match expression")) busyWorld
  ∧ returned (Query.getStoreAPIServiceEndpoints q1 unlistableWorld)
    = Some ([], Some (ErrorString "list failed")).
Proof.
  split.
  - apply (proj1 (getStoreAPIServiceEndpoints_fails q2 busyWorld)).
    vm_compute. reflexivity.
  - rewrite (proj2 (getStoreAPIServiceEndpoints_fails q1 unlistableWorld)
               requiredStoreServiceLabels (ErrorString "list failed"));
      [reflexivity | vm_compute; reflexivity..].
Defined.

Lemma getStoreAPIServiceEndpoints_all_valid_witness :
  ∃ w', Query.getStoreAPIServiceEndpoints q1 healthyWorld
        = Returned ([endpointFor svcStrict], None) w'
    ∧ logs w' = [].
Proof.
  destruct (getStoreAPIServiceEndpoints_all_valid q1 healthyWorld
              requiredStoreServiceLabels [svcStrict])
    as (w' & Hrun & Hlogs & _); [vm_compute; reflexivity..| |].
  - intros s Hs. apply list_elem_of_singleton in Hs. subst s. vm_compute. reflexivity.
  - exists w'. split; [exact Hrun|exact Hlogs].
Defined.

Lemma Reconcile_discovery_failed_witness :
  returned (Query.Reconcile requestQ2 busyWorld)
  = Some (emptyResult, Some (ErrorString "unsupported match expression"))
  ∧ calls (finalWorld (Query.Reconcile requestQ2 busyWorld))
    = [CallGet (reqNamespacedName requestQ2)].
Proof.
  assert (Hget : GetThanosQuery (cluster busyWorld) (reqNamespacedName requestQ2) = inr q2)
    by (vm_compute; reflexivity).
  assert (Hp : qPaused (querySpec q2) ≠ Some true) by discriminate.
  assert (Hsel : BuildLabelSelectorFrom (qStoreLabelSelector (querySpec q2))
                   requiredStoreServiceLabels
                 = inl (ErrorString "unsupported match expression"))
    by (vm_compute; reflexivity).
  rewrite (proj1 (Reconcile_discovery_failed requestQ2 busyWorld q2 Hget Hp) _ Hsel).
  split; reflexivity.
Defined.

Lemma Store_Reconcile_accounting_witness :
  ∃ err w', Store.Reconcile requestS2 healthyWorld = Returned (emptyResult, err) w'
    ∧ counterValue (ReconciliationsTotal (metrics w')) [StoreName]
      = counterValue (ReconciliationsTotal (metrics healthyWorld)) [StoreName] + 1.
Proof.
  destruct (Store_Reconcile_accounting requestS2 healthyWorld)
    as (err & w' & Hrun & Htotal & _).
  - intros store Hget _. vm_compute in Hget. injection Hget as <-.
    exists 10737418240. vm_compute. reflexivity.
  - exists err, w'. split; [exact Hrun|exact Htotal].
Defined.

Lemma enqueueForService_logs_witness :
  logs (finalWorld (Query.enqueueForService svcStrict busyWorld))
  = [LogError (ErrorString "unsupported match expression")
       "failed to build label selector from store label selector"].
Proof.
  rewrite (enqueueForService_logs svcStrict busyWorld [q1; q2; q3]);
    vm_compute; reflexivity.
Defined.

Lemma syncResources_writes_built_objects_witness :
  ∃ qo frontendObjs tr,
    calls (finalWorld (Query.syncResources q1 healthyWorld))
    = calls healthyWorld ++ [CallListServices "ns-a"] ++ tr
    ∧ written tr = omap (prepared (OwnerQuery q1) "ns-a") (BuildQuery qo ++ frontendObjs)
    ∧ qoTimeout qo = "15m"
    ∧ frontendObjs = [].
Proof.
  destruct (syncResources_writes_built_objects q1 healthyWorld
              requiredStoreServiceLabels [svcStrict])
    as (qo & fobjs & tr & Hcalls & Hwr & _ & _ & _ & Ht & _ & _ & Hf);
    [vm_compute; reflexivity..|].
  exists qo, fobjs, tr. split; [exact Hcalls|]. split; [exact Hwr|].
  split; [exact Ht|exact Hf].
Defined.

Lemma Store_syncResources_writes_built_objects_witness :
  ∃ so tr,
    calls (finalWorld (Store.syncResources s2 healthyWorld)) = calls healthyWorld ++ tr
    ∧ written tr = omap (prepared (OwnerStore s2) "ns-a") (BuildStores so)
    ∧ soStorageSize so = 10737418240.
Proof.
  destruct (Store_syncResources_writes_built_objects s2 healthyWorld 10737418240)
    as (so & tr & Hcalls & Hwr & _ & Hsize & _); [vm_compute; reflexivity|].
  exists so, tr. split; [exact Hcalls|]. split; [exact Hwr|exact Hsize].
Defined.

(** One pass over the healthy cluster: no error, three objects created
    with their owner reference, one configured Strict endpoint. *)
Example Reconcile_healthy_query :
  let out := Query.Reconcile requestQ1 healthyWorld in
  returned out = Some (emptyResult, None)
  ∧ map (fun o => (objGVK o, Namespace (objMeta o), map orName (OwnerReferences (objMeta o))))
      (objects (cluster (finalWorld out)))
    = [("ServiceAccount", "ns-a", ["q1"]); ("Deployment", "ns-a", ["q1"]);
       ("Service", "ns-a", ["q1"])]
  ∧ events (finalWorld out) = []
  ∧ map_to_list (EndpointsConfigured (metrics (finalWorld out)))
    = [(["operator.thanos.io/endpoint-strict"; "q1"; "ns-a"], 1)].
Proof. repeat split; vm_compute; reflexivity. Qed.

End MoreExamples.
